(** * netgear-admin: a shallow embedding of netgear-admin.py

    The script resolves its configuration ([getConfigValue]), then drives a
    Selenium WebDriver session ([NetgearAdmin.run]).  The browser is an
    abstract WebDriver interface (the type class [Driver]); every driver
    command, logger call, sleep and print is recorded in a trace, and Python
    exceptions are an explicit error result. *)

From Stdlib Require Import Ascii String List Bool Arith Lia ZArith.
From stdpp Require Import base gmap strings pretty.
Import ListNotations.
Open Scope string_scope.
Set Warnings "-register-all".

(* ------------------------------------------------------------------ *)
(** ** Python values *)

(** The values that flow through the configuration code: argparse results,
    [parse_qs] results and parsed JSON ([json.load]; floats are not
    modelled).  A JSON object keeps its keys unique, as a Python dict. *)
Inductive pyval :=
| PNone
| PBool (b : bool)
| PInt (z : Z)
| PStr (s : string)
| PList (l : list pyval)
| PDict (kv : list (string * pyval)).

(** Python truthiness ([if value:]). *)
Definition truthy (v : pyval) : bool :=
  match v with
  | PNone => false
  | PBool b => b
  | PInt z => negb (Z.eqb z 0)
  | PStr s => negb (String.eqb s "")
  | PList l => negb (Nat.eqb (length l) 0)
  | PDict kv => negb (Nat.eqb (length kv) 0)
  end.

(** [v == 'lit'] for a string literal. *)
Definition py_eq_str (v : pyval) (lit : string) : bool :=
  match v with PStr s => String.eqb s lit | _ => false end.

(** [str(v)], as used by [str.format] ([repr] for list items; quotes inside
    strings are not escaped). *)
Fixpoint py_str (v : pyval) : string :=
  match v with
  | PNone => "None"
  | PBool true => "True"
  | PBool false => "False"
  | PInt z => pretty z
  | PStr s => s
  | PList l =>
      "[" ++ String.concat ", " (map (fun x => match x with
                                               | PStr s => "'" ++ s ++ "'"
                                               | _ => py_str x end) l) ++ "]"
  | PDict kv =>
      "{" ++ String.concat ", "
               (map (fun '(k, x) => "'" ++ k ++ "': " ++ py_str x) kv) ++ "}"
  end.

(** Python exceptions that the script can raise or meet. *)
Inductive exit_arg := ExitCode (n : nat) | ExitMsg (msg : string).

Inductive exn :=
| SystemExit (a : exit_arg)
| RuntimeError (msg : string)
| NameError (name : string)
| TypeError
| UnboundLocalError (name : string)
| FileNotFoundError
| JSONDecodeError
| NoSuchElementException
| NoAlertPresentException
| TimeoutException
| WebDriverException.

(** [except Exception:] catches everything but [SystemExit] here. *)
Definition is_Exception (e : exn) : bool :=
  match e with SystemExit _ => false | _ => true end.

(** Exit status of the interpreter when [main] ends with [r]: [SystemExit(n)]
    exits with [n], [SystemExit(msg)] prints [msg] and exits with 1, and an
    uncaught exception prints a traceback and exits with 1. *)
Definition exit_status {A} (r : exn + A) : nat :=
  match r with
  | inr _ => 0
  | inl (SystemExit (ExitCode n)) => n
  | inl _ => 1
  end.

(* ------------------------------------------------------------------ *)
(** ** [urllib.parse.parse_qs] (Python >= 3.9.2: separator ['&'],
    [keep_blank_values=False], [strict_parsing=False]) *)

(** [s.split(c)]: always at least one field. *)
Fixpoint split_on (c : ascii) (s : string) : list string :=
  match s with
  | EmptyString => [""]
  | String x r =>
      let parts := split_on c r in
      if Ascii.eqb x c then "" :: parts
      else match parts with
           | p :: ps => String x p :: ps
           | [] => [String x ""]
           end
  end.

(** [s.split(c, 1)] when it yields two fields. *)
Fixpoint split_first (c : ascii) (s : string) : option (string * string) :=
  match s with
  | EmptyString => None
  | String x r =>
      if Ascii.eqb x c then Some ("", r)
      else match split_first c r with
           | Some (a, b) => Some (String x a, b)
           | None => None
           end
  end.

(** [s.replace('+', ' ')] *)
Fixpoint plus_to_space (s : string) : string :=
  match s with
  | EmptyString => EmptyString
  | String x r => String (if Ascii.eqb x "+"%char then " "%char else x) (plus_to_space r)
  end.

Definition hex_digit (c : ascii) : option nat :=
  let n := nat_of_ascii c in
  if (48 <=? n)%nat && (n <=? 57)%nat then Some (n - 48)%nat
  else if (65 <=? n)%nat && (n <=? 70)%nat then Some (n - 55)%nat
  else if (97 <=? n)%nat && (n <=? 102)%nat then Some (n - 87)%nat
  else None.

(** [unquote]: %XX escapes decoded into bytes; strings are byte strings,
    so the final UTF-8 decoding is not modelled. *)
Fixpoint unquote (s : string) : string :=
  match s with
  | EmptyString => EmptyString
  | String x r =>
      if Ascii.eqb x "%"%char then
        match r with
        | String h1 (String h2 r') =>
            match hex_digit h1, hex_digit h2 with
            | Some a, Some b => String (ascii_of_nat (16 * a + b)) (unquote r')
            | _, _ => String x (unquote r)
            end
        | _ => String x (unquote r)
        end
      else String x (unquote r)
  end.

(** [parse_qsl]: the (name, value) pairs in order. *)
Definition parse_qsl (qs : string) : list (string * string) :=
  flat_map (fun name_value =>
    if String.eqb name_value "" then []
    else match split_first "="%char name_value with
         | None => []
         | Some (n, v) =>
             if String.eqb v "" then []
             else [(unquote (plus_to_space n), unquote (plus_to_space v))]
         end) (split_on "&"%char qs).

(** [parse_qs]: each name maps to the list of its values, in order. *)
Definition parse_qs (qs : string) : gmap string (list string) :=
  fold_left (fun (acc : gmap string (list string)) '(n, v) =>
    match acc !! n with
    | Some vs => <[n := (vs ++ [v])%list]> acc
    | None => <[n := [v]]> acc
    end) (parse_qsl qs) ∅.

(* ------------------------------------------------------------------ *)
(** ** [getConfigValue] *)

(** The argparse namespace of [parse_args]. *)
Record args := mkArgs {
  a_verbose : nat;
  a_browser_name : string;
  a_router_ip : option string;
  a_username : option string;
  a_password : option string;
  a_action : option string
}.

Definition opt_str (o : option string) : pyval :=
  match o with Some s => PStr s | None => PNone end.

(** [vars(args)] *)
Definition vars (a : args) : gmap string pyval :=
  <["verbose" := PInt (Z.of_nat (a_verbose a))]>
  (<["browser_name" := PStr (a_browser_name a)]>
  (<["router_ip" := opt_str (a_router_ip a)]>
  (<["username" := opt_str (a_username a)]>
  (<["password" := opt_str (a_password a)]>
  {["action" := opt_str (a_action a)]})))).

(** The file [config.json] as [json.load(open(CONFIG_FILE))] meets it. *)
Inductive cfgfile :=
| CfgMissing                 (* open raises FileNotFoundError *)
| CfgMalformed               (* json.load raises JSONDecodeError *)
| CfgJson (v : pyval).

Definition load_config (c : cfgfile) : exn + pyval :=
  match c with
  | CfgMissing => inl FileNotFoundError
  | CfgMalformed => inl JSONDecodeError
  | CfgJson v => inr v
  end.

Definition is_substring (needle hay : string) : bool :=
  match String.index 0 needle hay with Some _ => true | None => false end.

(** [name in config], then [config[name]] when it is. *)
Definition json_lookup (name : string) (config : pyval) : exn + option pyval :=
  match config with
  | PDict kv =>
      inr (option_map snd (find (fun kv1 => String.eqb (fst kv1) name) kv))
  | PList l =>
      if existsb (fun x => py_eq_str x name) l then inl TypeError else inr None
  | PStr s => if is_substring name s then inl TypeError else inr None
  | _ => inl TypeError
  end.

(** [getConfigValue(args, name, default)], block by block: [environ] is
    [os.environ], [cfg] the file [config.json], and [value] the local
    variable ([None] while unbound). *)

(** [# if not found look in config] / [# fallback to default] *)
Definition config_step (cfg : cfgfile) (name : string) (default : pyval)
    (value : option pyval) : exn + pyval :=
  match load_config cfg with
  | inl e => inl e
  | inr config =>
      match json_lookup name config with
      | inl e => inl e
      | inr found =>
          match (match found with Some v => Some v | None => value end) with
          | None => inl (UnboundLocalError "value")
          | Some v => inr (if truthy v then v else default)
          end
      end
  end.

(** [# check query string] *)
Definition query_step (environ : gmap string string) (cfg : cfgfile)
    (name : string) (default : pyval) (value : option pyval) : exn + pyval :=
  match environ !! "QUERY_STRING" with
  | Some qs =>
      match parse_qs qs !! name with
      | Some vs =>
          let v := PList (map PStr vs) in
          if truthy v then inr v else config_step cfg name default (Some v)
      | None => config_step cfg name default value
      end
  | None => config_step cfg name default value
  end.

(** [# check args] *)
Definition getConfigValue (a : args) (environ : gmap string string)
    (cfg : cfgfile) (name : string) (default : pyval) : exn + pyval :=
  match vars a !! name with
  | Some v => if truthy v then inr v else query_step environ cfg name default (Some v)
  | None => query_step environ cfg name default None
  end.

Example parse_qs_ex :
  parse_qs "router_ip=10.0.0.1&action=re%62oot&x=&y&router_ip=a+b"
  !! "router_ip" = Some ["10.0.0.1"; "a b"].
Proof. reflexivity. Qed.

Example parse_qs_ex2 : parse_qs "action=re%62oot&x=&y" !! "action" = Some ["reboot"].
Proof. reflexivity. Qed.

Example parse_qs_ex3 : parse_qs "action=re%62oot&x=&y" !! "x" = None.
Proof. reflexivity. Qed.

(* ------------------------------------------------------------------ *)
(** ** The WebDriver interface *)

(** Wait conditions passed to [WebDriverWait(...).until]. *)
Inductive cond :=
| CondUrlNot (u : string)      (* lambda x: browser.current_url != u *)
| CondReady.                   (* doc_readystate_is_complete *)

Inductive locator := ByName (n : string) | ById (i : string) | ByXPath (x : string).

(** A Selenium session over browser states [B] and page elements [E].
    [drv_launch k] is the constructor of the webdriver of kind [k]
    ([None] when it raises); [drv_wait t c] is [WebDriverWait(browser,
    t).until(c)], [false] when it times out or the condition raises. *)
Class Driver (B E : Type) := {
  drv_launch : string -> B -> option B;
  drv_set_window_size : nat -> nat -> B -> B;
  drv_get : string -> B -> B;
  drv_current_url : B -> string;
  drv_find : locator -> B -> list E;
  drv_attr : E -> string -> B -> option string;
  drv_click : E -> B -> B;
  drv_wait : nat -> cond -> B -> bool * B;
  drv_page_source_len : B -> nat;
  drv_title : B -> string;
  drv_alert : B -> bool;
  drv_accept : B -> B;
  drv_sleep : nat -> B -> B;
  drv_quit : B -> B
}.

Inductive level := DEBUG | INFO | WARNING | ERROR | CRITICAL.

Definition level_num (l : level) : nat :=
  match l with DEBUG => 10 | INFO => 20 | WARNING => 30 | ERROR => 40 | CRITICAL => 50 end.

(** What the run does to the outside world, in order. *)
Inductive event (E : Type) :=
| EvLog (lvl : level) (msg : string)    (* an entry written to netgear-admin.log *)
| EvSetEnv (k v : string)
| EvAcquire (kind : string)
| EvWindowSize (w h : nat)
| EvGet (url : string)
| EvWait (timeout : nat) (c : cond) (ok : bool)
| EvFind (loc : locator) (found : list E)
| EvClick (e : E)
| EvSleep (secs : nat)
| EvScreenshot (fname : string)
| EvAcceptAlert
| EvQuit
| EvPrint (line : string).
Arguments EvLog {E}. Arguments EvSetEnv {E}. Arguments EvAcquire {E}.
Arguments EvWindowSize {E}. Arguments EvGet {E}. Arguments EvWait {E}.
Arguments EvFind {E}. Arguments EvClick {E}. Arguments EvSleep {E}.
Arguments EvScreenshot {E}. Arguments EvAcceptAlert {E}. Arguments EvQuit {E}.
Arguments EvPrint {E}.

(** The process state: the browser, the trace so far, [os.environ], the
    working directory, the root logger's level, and the two mutable fields
    of the [NetgearAdmin] object ([self.browser is not None] and
    [self._screenshot_num]). *)
Record st (B E : Type) := mkSt {
  st_br : B;
  st_trace : list (event E);
  st_environ : gmap string string;
  st_cwd : string;
  st_log_level : level;
  st_has_browser : bool;
  st_shot_num : nat
}.
Arguments mkSt {B E}.
Arguments st_br {B E}. Arguments st_trace {B E}. Arguments st_environ {B E}.
Arguments st_cwd {B E}. Arguments st_log_level {B E}.
Arguments st_has_browser {B E}. Arguments st_shot_num {B E}.

Definition set_br {B E} (b : B) (s : st B E) : st B E :=
  mkSt b (st_trace s) (st_environ s) (st_cwd s) (st_log_level s) (st_has_browser s) (st_shot_num s).
Definition add_ev {B E} (ev : event E) (s : st B E) : st B E :=
  mkSt (st_br s) (st_trace s ++ [ev])%list (st_environ s) (st_cwd s) (st_log_level s)
       (st_has_browser s) (st_shot_num s).
Definition set_environ {B E} (env : gmap string string) (s : st B E) : st B E :=
  mkSt (st_br s) (st_trace s) env (st_cwd s) (st_log_level s) (st_has_browser s) (st_shot_num s).
Definition set_log_level {B E} (l : level) (s : st B E) : st B E :=
  mkSt (st_br s) (st_trace s) (st_environ s) (st_cwd s) l (st_has_browser s) (st_shot_num s).
Definition set_has_browser {B E} (h : bool) (s : st B E) : st B E :=
  mkSt (st_br s) (st_trace s) (st_environ s) (st_cwd s) (st_log_level s) h (st_shot_num s).
Definition set_shot_num {B E} (n : nat) (s : st B E) : st B E :=
  mkSt (st_br s) (st_trace s) (st_environ s) (st_cwd s) (st_log_level s) (st_has_browser s) n.

(* ------------------------------------------------------------------ *)
(** ** A state and exception monad *)

Definition M (B E A : Type) : Type := st B E -> (exn + A) * st B E.

Global Instance M_ret {B E} : MRet (M B E) := fun A x s => (inr x, s).
Global Instance M_bind {B E} : MBind (M B E) := fun A C f m s =>
  match m s with
  | (inr x, s') => f x s'
  | (inl e, s') => (inl e, s')
  end.

Section Primitives.
Context {B E : Type} `{!Driver B E}.

Definition raise {A} (e : exn) : M B E A := fun s => (inl e, s).

Definition lift {A} (r : exn + A) : M B E A := fun s => (r, s).

(** [try: m / except Exception: h] *)
Definition try_Exception {A} (m : M B E A) (h : exn -> M B E A) : M B E A := fun s =>
  match m s with
  | (inl e, s') => if is_Exception e then h e s' else (inl e, s')
  | r => r
  end.

(** [try: m / except: h] (a bare except also catches [SystemExit]) *)
Definition try_all {A} (m : M B E A) (h : exn -> M B E A) : M B E A := fun s =>
  match m s with
  | (inl e, s') => h e s'
  | r => r
  end.

Definition emit (ev : event E) : M B E unit := fun s => (inr tt, add_ev ev s).

(** A logger call: written when its level passes the root logger's. *)
Definition log (lvl : level) (msg : string) : M B E unit := fun s =>
  if Nat.leb (level_num (st_log_level s)) (level_num lvl) then (inr tt, add_ev (EvLog lvl msg) s)
  else (inr tt, s).

Definition query {A} (f : B -> A) : M B E A := fun s => (inr (f (st_br s)), s).

Definition command (f : B -> B) (ev : event E) : M B E unit := fun s =>
  (inr tt, add_ev ev (set_br (f (st_br s)) s)).

Definition getenv : M B E (gmap string string) := fun s => (inr (st_environ s), s).
Definition putenv (k v : string) : M B E unit := fun s =>
  (inr tt, add_ev (EvSetEnv k v) (set_environ (<[k := v]> (st_environ s)) s)).
Definition getcwd : M B E string := fun s => (inr (st_cwd s), s).

(** The object's mutable fields and the logger's level. *)
Definition get_shot_num : M B E nat := fun s => (inr (st_shot_num s), s).
Definition put_shot_num (n : nat) : M B E unit := fun s => (inr tt, set_shot_num n s).
Definition get_has_browser : M B E bool := fun s => (inr (st_has_browser s), s).
Definition put_has_browser (h : bool) : M B E unit := fun s => (inr tt, set_has_browser h s).
Definition put_log_level (l : level) : M B E unit := fun s => (inr tt, set_log_level l s).

(** [time.sleep(n)]: the browser keeps running meanwhile. *)
Definition time_sleep (n : nat) : M B E unit := command (drv_sleep n) (EvSleep n).

Definition browser_get (url : string) : M B E unit := command (drv_get url) (EvGet url).
Definition browser_quit : M B E unit := command drv_quit EvQuit.
Definition click (e : E) : M B E unit := command (drv_click e) (EvClick e).
Definition screenshot_as_file (fname : string) : M B E unit := emit (EvScreenshot fname).

Definition find_elements (loc : locator) : M B E (list E) :=
  es ← query (drv_find loc); emit (EvFind loc es);; mret es.

(** [find_element_by_*]: the first match, or [NoSuchElementException]. *)
Definition find_element (loc : locator) : M B E E :=
  es ← find_elements loc;
  match es with e :: _ => mret e | [] => raise NoSuchElementException end.

Definition get_attribute (e : E) (name : string) : M B E (option string) :=
  query (drv_attr e name).

(** [WebDriverWait(browser, t).until(c)]: raises [TimeoutException]. *)
Definition webdriver_wait (t : nat) (c : cond) : M B E unit := fun s =>
  let '(ok, b') := drv_wait t c (st_br s) in
  (if ok then inr tt else inl TimeoutException, add_ev (EvWait t c ok) (set_br b' s)).

(** [webdriver.X()] for the browser kind [k]. *)
Definition launch (k : string) : M B E unit := fun s =>
  match drv_launch k (st_br s) with
  | Some b => (inr tt, add_ev (EvAcquire k) (set_br b s))
  | None => (inl WebDriverException, s)
  end.

End Primitives.

(* ------------------------------------------------------------------ *)
(** ** Helpers for strings *)

(** [str.format] with the positional fields [{0}], [{1}], [{2}]. *)
Fixpoint py_format3 (t a0 a1 a2 : string) : string :=
  match t with
  | EmptyString => EmptyString
  | String c r =>
      let rest := String c (py_format3 r a0 a1 a2) in
      if Ascii.eqb c "{"%char then
        match r with
        | String d (String c' r') =>
            if Ascii.eqb c' "}"%char then
              if Ascii.eqb d "0"%char then a0 ++ py_format3 r' a0 a1 a2
              else if Ascii.eqb d "1"%char then a1 ++ py_format3 r' a0 a1 a2
              else if Ascii.eqb d "2"%char then a2 ++ py_format3 r' a0 a1 a2
              else rest
            else rest
        | _ => rest
        end
      else rest
  end.

(** [os.path.join(d, f)] for a relative [f]. *)
Definition path_join (d f : string) : string :=
  if String.eqb d "" then f
  else if String.eqb (String.substring (String.length d - 1) 1 d) "/" then d ++ f
  else d ++ "/" ++ f.

Definition dq : string := String (Ascii.ascii_of_nat 34) EmptyString.

(* ------------------------------------------------------------------ *)
(** ** [class NetgearAdmin] *)

Definition ACTION_REBOOT := "reboot".
Definition ACTION_BLOCK := "block".
Definition ACTION_UNBLOCK := "unblock".

Definition START_URL := "http://{1}:{2}@{0}/".
Definition HOME_URL := "http://{1}:{2}@{0}/ADVANCED_home1.htm".
Definition BLOCK_URL := "http://{1}:{2}@{0}/BKS_service.htm".

Definition MULTI_LOGIN_XPATH := "//form[starts-with(@action, 'multi_login.cgi')]".

(** The fields set by [__init__] that never change afterwards; [browser]
    and [_screenshot_num] live in the state. *)
Record obj := mkObj {
  o_ip : pyval;
  o_username : pyval;
  o_password : pyval;
  o_action : pyval;
  o_screenshot : bool;          (* the [debug] argument *)
  o_browser_name : string
}.

(** The URL [get] requests for a template. *)
Definition page_url (o : obj) (tmpl : string) : string :=
  py_format3 tmpl (py_str (o_ip o)) (py_str (o_username o)) (py_str (o_password o)).

Section NetgearAdmin.
Context {B E : Type} `{!Driver B E}.
Variable o : obj.

Definition do_screenshot : M B E unit :=
  if negb (o_screenshot o) then mret tt else
  cwd ← getcwd;
  n ← get_shot_num;
  let fname := path_join cwd (pretty n ++ ".png") in
  screenshot_as_file fname;;
  url ← query drv_current_url;
  log DEBUG ("Screenshot: " ++ fname ++ " of: " ++ url);;
  put_shot_num (S n).

(** The last statement, [codecs.open(...)], raises [NameError]: the module
    [codecs] is not imported. *)
Definition error_screenshot : M B E unit :=
  cwd ← getcwd;
  let fname := path_join cwd "webdriver_fail.png" in
  screenshot_as_file fname;;
  log ERROR ("Screenshot saved to: " ++ fname);;
  title ← query drv_title;
  log ERROR ("Page title: " ++ title);;
  let html_path := path_join cwd "webdriver_fail.html" in
  raise (NameError "codecs").

(** The [for x in range(0, 5)] loop of [get] with [n] iterations left and
    its [else] clause. *)
Fixpoint get_attempts (url : string) (n : nat) : M B E unit :=
  match n with
  | O => error_screenshot;; raise (RuntimeError ("GET " ++ url ++ " failed"))
  | S n' =>
      loaded ← try_Exception
                 (webdriver_wait 15 (CondUrlNot "about:blank");; mret true)
                 (fun _ => log WARNING ("GET " ++ url ++ " failed; trying again");; mret false);
      if (loaded : bool) then mret tt
      else (browser_get url;; time_sleep 2;; get_attempts url n')
  end.

Definition get (tmpl : string) : M B E unit :=
  let url := page_url o tmpl in
  log INFO ("GET " ++ url);;
  browser_get url;;
  get_attempts url 5.

Definition wait_for_ajax_load (timeout : nat) : M B E unit :=
  webdriver_wait timeout CondReady.

(** The [while len(self.browser.page_source) < 30] loop; [count] runs from
    0 to 21, so the fuel 22 is never exhausted. *)
Fixpoint page_source_loop (fuel count : nat) : M B E unit :=
  match fuel with
  | O => mret tt
  | S fuel' =>
      len ← query drv_page_source_len;
      if Nat.ltb (len : nat) 30 then
        if Nat.ltb 20 count then
          error_screenshot;;
          raise (RuntimeError "Waited 20s for page source to be more than 30 bytes, but still too small...")
        else
          len' ← query drv_page_source_len;
          log DEBUG ("Page source is only " ++ pretty len' ++ " bytes; sleeping");;
          time_sleep 1;;
          page_source_loop fuel' (S count)
      else mret tt
  end.

Definition wait_for_page_load : M B E unit :=
  wait_for_ajax_load 20;; page_source_loop 22 0.

Definition get_start_page : M B E unit := get START_URL;; wait_for_page_load;; do_screenshot.
Definition get_home_page : M B E unit := get HOME_URL;; wait_for_page_load;; do_screenshot.
Definition get_block_page : M B E unit := get BLOCK_URL;; wait_for_page_load;; do_screenshot.

Definition check_login : M B E bool :=
  try_all
    (_ ← find_element (ByXPath MULTI_LOGIN_XPATH);
     log INFO "Multi login warning screen detected";;
     yes ← find_element (ByName "yes");
     click yes;;
     wait_for_page_load;;
     do_screenshot)
    (fun _ => log DEBUG "No Multi login warning screen detected");;
  try_all
    (_ ← find_element (ByName "logout"); mret true)
    (fun _ => log DEBUG "Logout button not found";; mret false).

(** [browser.switch_to_alert()] *)
Definition switch_to_alert : M B E unit :=
  a ← query drv_alert;
  if (a : bool) then mret tt else raise NoAlertPresentException.

Definition reboot : M B E unit :=
  e ← find_element (ById "reboot");
  click e;;
  time_sleep 1;;
  switch_to_alert;;
  command drv_accept EvAcceptAlert.

Definition attr_is (attr : option string) (lit : string) : bool :=
  match attr with Some a => String.eqb a lit | None => false end.

(** The [for radio in radios] loop of [block_services]. *)
Fixpoint block_loop (value : bool) (apply : E) (radios : list E) : M B E bool :=
  match radios with
  | [] => mret false
  | radio :: rest =>
      attr ← get_attribute radio "value";
      if (value && attr_is (attr : option string) "perschedule") || (negb value && attr_is attr "never") then
        log INFO ("Clicking " ++ dq ++ py_str (opt_str attr) ++ dq ++ " block option");;
        click radio;;
        do_screenshot;;
        log INFO "Applying block option";;
        click apply;;
        time_sleep 1;;
        wait_for_page_load;;
        do_screenshot;;
        mret true
      else block_loop value apply rest
  end.

Definition block_services (value : bool) : M B E bool :=
  apply ← find_element (ByName "apply");
  radios ← find_elements (ByName "skeyword");
  block_loop value apply radios.

Definition get_browser : M B E unit :=
  let name := o_browser_name o in
  (if String.eqb name "firefox" then
     log DEBUG "getting Firefox browser (local)";;
     env ← getenv;
     (match (env : gmap string string) !! "DISPLAY" with
      | None => log DEBUG "exporting DISPLAY=:0";; putenv "DISPLAY" ":0"
      | Some _ => mret tt
      end);;
     launch "firefox"
   else if String.eqb name "chrome" then
     log DEBUG "getting Chrome browser (local)";; launch "chrome"
   else if String.eqb name "chrome-headless" then
     log DEBUG "getting Chrome browser (local) with --headless";; launch "chrome-headless"
   else if String.eqb name "phantomjs" then
     log DEBUG "getting PhantomJS browser (local)";; launch "phantomjs"
   else
     raise (SystemExit (ExitMsg ("ERROR: browser type must be one of 'firefox', 'chrome', 'phantomjs', or 'chrome-headless' not '" ++ name ++ "'"))));;
  command (drv_set_window_size 1024 768) (EvWindowSize 1024 768);;
  log DEBUG "returning browser".

(** Lines 105-113 of [run]: the action. *)
Definition run_action : M B E unit :=
  (if py_eq_str (o_action o) ACTION_REBOOT then get_home_page;; reboot else mret tt);;
  (if py_eq_str (o_action o) ACTION_BLOCK || py_eq_str (o_action o) ACTION_UNBLOCK then
     get_block_page;;
     _ ← block_services (py_eq_str (o_action o) ACTION_BLOCK);
     mret tt
   else mret tt).

(** The body of the [try] in [run]; [exit(1)] raises [SystemExit(1)]. *)
Definition run_body : M B E unit :=
  get_browser;;
  put_has_browser true;;
  get_start_page;;
  ok ← check_login;
  (if (ok : bool) then mret tt
   else log CRITICAL "Login failed";; browser_quit;; raise (SystemExit (ExitCode 1)));;
  run_action;;
  browser_quit.

Definition run_handler (e : exn) : M B E unit :=
  has ← get_has_browser;
  (if (has : bool) then browser_quit else mret tt);;
  raise e.

Definition run : M B E unit :=
  log DEBUG "Getting page...";;
  try_Exception run_body run_handler.

End NetgearAdmin.

(* ------------------------------------------------------------------ *)
(** ** [main] *)

Section Main.
Context {B E : Type} `{!Driver B E}.

Definition set_log_debug : M B E unit := put_log_level DEBUG.

Definition MSG_REQUIRED :=
  "ERROR: you need to specify router IP, username and password through command line arguments or config.json".
Definition MSG_ACTION := "ERROR: you need to specify at least one action to perform".

(** [main] up to [script = NetgearAdmin(...)] (the constructor included):
    [a] is [parse_args(sys.argv[1:])], [cfg] the file [config.json]. *)
Definition main_config (a : args) (cfg : cfgfile) : M B E obj :=
  debug ← (if Nat.ltb 0 (a_verbose a) then set_log_debug;; mret true else mret false);
  env ← getenv;
  action ← lift (getConfigValue a env cfg "action" (PBool false));
  router_ip ← lift (getConfigValue a env cfg "router_ip" (PBool false));
  username ← lift (getConfigValue a env cfg "username" (PStr "admin"));
  password ← lift (getConfigValue a env cfg "password" (PBool false));
  if negb (truthy router_ip) || negb (truthy username) || negb (truthy password) then
    log CRITICAL MSG_REQUIRED;; raise (SystemExit (ExitMsg MSG_REQUIRED))
  else if negb (truthy action) then
    log CRITICAL MSG_ACTION;; raise (SystemExit (ExitMsg MSG_ACTION))
  else
    put_has_browser false;; put_shot_num 1;;
    log DEBUG "Getting browser instance...";;
    mret (mkObj router_ip username password (opt_str (a_action a)) debug (a_browser_name a)).

Definition cgi_headers (isCgi : bool) : M B E unit :=
  if isCgi then
    emit (EvPrint "Status: 200 OK");; emit (EvPrint "Location: index.html");; emit (EvPrint "")
  else mret tt.

Definition main (a : args) (cfg : cfgfile) : M B E unit :=
  env ← getenv;
  let isCgi := match env !! "GATEWAY_INTERFACE" with Some _ => true | None => false end in
  script ← main_config a cfg;
  run script;;
  cgi_headers isCgi.

End Main.

(* ------------------------------------------------------------------ *)
(** ** A mock browser session, for concrete runs *)

Module Mock.

(** A page element: its [name], [id] and [value] attributes.  An xpath
    lookup matches the elements whose [name] is the xpath. *)
Record melem := mkElem { me_name : string; me_id : string; me_value : string }.

(** The router's pages by URL; [m_up] is false when the router never
    answers (the browser stays on about:blank). *)
Record mstate := mkM {
  m_site : list (string * list melem);
  m_up : bool;
  m_url : string;
  m_alert : bool
}.

Definition with_url (u : string) (b : mstate) : mstate := mkM (m_site b) (m_up b) u (m_alert b).
Definition with_alert (a : bool) (b : mstate) : mstate := mkM (m_site b) (m_up b) (m_url b) a.

Definition page (b : mstate) : list melem :=
  match find (fun p => String.eqb (fst p) (m_url b)) (m_site b) with
  | Some (_, es) => es
  | None => []
  end.

Definition mfind (loc : locator) (b : mstate) : list melem :=
  match loc with
  | ByName n => filter (fun e => String.eqb (me_name e) n) (page b)
  | ById i => filter (fun e => String.eqb (me_id e) i) (page b)
  | ByXPath x => filter (fun e => String.eqb (me_name e) x) (page b)
  end.

#[global] Instance mock_driver : Driver mstate melem := {
  drv_launch := fun _ b => Some (with_url "about:blank" b);
  drv_set_window_size := fun _ _ b => b;
  drv_get := fun u b => if m_up b then with_url u b else b;
  drv_current_url := m_url;
  drv_find := mfind;
  drv_attr := fun e a _ => if String.eqb a "value" then Some (me_value e) else None;
  drv_click := fun e b => if String.eqb (me_id e) "reboot" then with_alert true b else b;
  drv_wait := fun _ c b =>
    match c with
    | CondUrlNot u => (negb (String.eqb (m_url b) u), b)
    | CondReady => (true, b)
    end;
  drv_page_source_len := fun _ => 1000;
  drv_title := fun _ => "NETGEAR Router";
  drv_alert := m_alert;
  drv_accept := with_alert false;
  drv_sleep := fun _ b => b;
  drv_quit := fun b => b
}.

Definition logout_btn := mkElem "logout" "logout" "Logout".
Definition reboot_btn := mkElem "buttonSelect" "reboot" "Reboot".
Definition apply_btn := mkElem "apply" "apply" "Apply".
Definition radio_never := mkElem "skeyword" "bks_never" "never".
Definition radio_sched := mkElem "skeyword" "bks_sched" "perschedule".

Definition router_pages (block_radios : list melem) : list (string * list melem) :=
  [("http://admin:pw@192.168.1.1/", [logout_btn]);
   ("http://admin:pw@192.168.1.1/ADVANCED_home1.htm", [logout_btn; reboot_btn]);
   ("http://admin:pw@192.168.1.1/BKS_service.htm", (logout_btn :: apply_btn :: block_radios)%list)].

Definition router := mkM (router_pages [radio_never; radio_sched]) true "" false.
Definition router_no_radio := mkM (router_pages []) true "" false.
Definition router_down := mkM (router_pages []) false "" false.

Definition init (b : mstate) (env : gmap string string) : st mstate melem :=
  mkSt b [] env "/var/www" INFO false 1.

Definition cli (action : option string) : args :=
  mkArgs 0 "chrome-headless" (Some "192.168.1.1") (Some "admin") (Some "pw") action.

Definition cli_no_action : args :=
  mkArgs 0 "chrome-headless" (Some "192.168.1.1") (Some "admin") (Some "pw") None.

Definition the_obj (action : string) : obj :=
  mkObj (PStr "192.168.1.1") (PStr "admin") (PStr "pw") (PStr action) false "chrome-headless".

End Mock.

(** A browser whose page stays empty: the ready state is reached, the URL
    stays about:blank and the page source has no bytes. *)
Module Blank.

Inductive bstate := BState.

#[export] Instance blank_driver : Driver bstate unit := {
  drv_launch := fun _ b => Some b;
  drv_set_window_size := fun _ _ b => b;
  drv_get := fun _ b => b;
  drv_current_url := fun _ => "about:blank";
  drv_find := fun _ _ => [];
  drv_attr := fun _ _ _ => None;
  drv_click := fun _ b => b;
  drv_wait := fun _ c b => match c with CondReady => (true, b) | CondUrlNot _ => (false, b) end;
  drv_page_source_len := fun _ => 0;
  drv_title := fun _ => "";
  drv_alert := fun _ => false;
  drv_accept := fun b => b;
  drv_sleep := fun _ b => b;
  drv_quit := fun b => b
}.

Definition blank_state : st bstate unit := mkSt BState [] ∅ "/tmp" INFO true 1.

End Blank.

(* ------------------------------------------------------------------ *)
(** ** What a computation appends to the trace *)

Section Emits.
Context {B E : Type} `{!Driver B E}.
Local Open Scope list_scope.

(** [emits P m]: whatever [m] does, the events it appends all satisfy [P]. *)
Definition emits {A} (P : event E -> Prop) (m : M B E A) : Prop :=
  forall s, exists t, st_trace (snd (m s)) = (st_trace s ++ t)%list /\ Forall P t.

Lemma emits_none {A} (P : event E -> Prop) (m : M B E A) :
  (forall s, st_trace (snd (m s)) = st_trace s) -> emits P m.
Proof. intros H s. exists []. rewrite H, app_nil_r. auto. Qed.

Lemma emits_one {A} (P : event E -> Prop) (m : M B E A) ev :
  P ev -> (forall s, st_trace (snd (m s)) = st_trace s ++ [ev] \/ st_trace (snd (m s)) = st_trace s) ->
  emits P m.
Proof.
  intros HP H s. destruct (H s) as [-> | ->].
  - exists [ev]. auto.
  - exists []. rewrite app_nil_r. auto.
Qed.

Lemma emits_mret {A} P (x : A) : emits P (mret x).
Proof. apply emits_none. reflexivity. Qed.

Lemma emits_raise {A} P e : emits P (raise (A:=A) e).
Proof. apply emits_none. reflexivity. Qed.

Lemma emits_lift {A} P (r : exn + A) : emits P (lift r).
Proof. apply emits_none. reflexivity. Qed.

Lemma emits_bind {A C} P (m : M B E A) (f : A -> M B E C) :
  emits P m -> (forall x, emits P (f x)) -> emits P (m ≫= f).
Proof.
  intros Hm Hf s. unfold mbind, M_bind.
  destruct (Hm s) as [t1 [H1 F1]]. destruct (m s) as [[e | x] s1] eqn:E1; simpl in *.
  - exists t1. auto.
  - destruct (Hf x s1) as [t2 [H2 F2]]. exists (t1 ++ t2)%list.
    rewrite H2, H1, app_assoc. split; [reflexivity | apply Forall_app; auto].
Qed.

Lemma emits_if {A} P (b : bool) (m1 m2 : M B E A) :
  emits P m1 -> emits P m2 -> emits P (if b then m1 else m2).
Proof. destruct b; auto. Qed.

Lemma emits_try_Exception {A} P (m : M B E A) h :
  emits P m -> (forall e, emits P (h e)) -> emits P (try_Exception m h).
Proof.
  intros Hm Hh s. unfold try_Exception.
  destruct (Hm s) as [t1 [H1 F1]]. destruct (m s) as [[e | x] s1]; simpl in *.
  - destruct (is_Exception e); simpl; [| eauto].
    destruct (Hh e s1) as [t2 [H2 F2]]. exists (t1 ++ t2)%list.
    rewrite H2, H1, app_assoc. split; [reflexivity | apply Forall_app; auto].
  - eauto.
Qed.

Lemma emits_try_all {A} P (m : M B E A) h :
  emits P m -> (forall e, emits P (h e)) -> emits P (try_all m h).
Proof.
  intros Hm Hh s. unfold try_all.
  destruct (Hm s) as [t1 [H1 F1]]. destruct (m s) as [[e | x] s1]; simpl in *.
  - destruct (Hh e s1) as [t2 [H2 F2]]. exists (t1 ++ t2)%list.
    rewrite H2, H1, app_assoc. split; [reflexivity | apply Forall_app; auto].
  - eauto.
Qed.

Lemma emits_emit P ev : P ev -> emits P (emit ev).
Proof. intros HP. apply (emits_one _ _ ev); auto. Qed.

Lemma emits_log P lvl msg : P (EvLog lvl msg) -> emits P (log lvl msg).
Proof.
  intros HP. apply (emits_one _ _ _ HP). intros s. unfold log.
  destruct (Nat.leb _ _); simpl; auto.
Qed.

Lemma emits_query {A} P (f : B -> A) : emits P (query f).
Proof. apply emits_none. reflexivity. Qed.

Lemma emits_command P f ev : P ev -> emits P (command f ev).
Proof. intros HP. apply (emits_one _ _ _ HP). auto. Qed.

Lemma emits_getenv P : emits P getenv.
Proof. apply emits_none. reflexivity. Qed.

Lemma emits_putenv P k v : P (EvSetEnv k v) -> emits P (putenv k v).
Proof. intros HP. apply (emits_one _ _ _ HP). auto. Qed.

Lemma emits_getcwd P : emits P getcwd.
Proof. apply emits_none. reflexivity. Qed.

Lemma emits_get_shot_num P : emits P get_shot_num.
Proof. apply emits_none. reflexivity. Qed.

Lemma emits_put_shot_num P n : emits P (put_shot_num n).
Proof. apply emits_none. reflexivity. Qed.

Lemma emits_get_has_browser P : emits P get_has_browser.
Proof. apply emits_none. reflexivity. Qed.

Lemma emits_put_has_browser P h : emits P (put_has_browser h).
Proof. apply emits_none. reflexivity. Qed.

Lemma emits_put_log_level P l : emits P (put_log_level l).
Proof. apply emits_none. reflexivity. Qed.

Lemma emits_find_elements P loc : (forall es, P (EvFind loc es)) -> emits P (find_elements loc).
Proof.
  intros HP. unfold find_elements. apply emits_bind; [apply emits_query |].
  intros es. apply emits_bind; [apply emits_emit, HP | intros; apply emits_mret].
Qed.

Lemma emits_find_element P loc : (forall es, P (EvFind loc es)) -> emits P (find_element loc).
Proof.
  intros HP. unfold find_element. apply emits_bind; [apply emits_find_elements, HP |].
  intros [| e es]; [apply emits_raise | apply emits_mret].
Qed.

Lemma emits_webdriver_wait P t c : (forall ok, P (EvWait t c ok)) -> emits P (webdriver_wait t c).
Proof.
  intros HP s. unfold webdriver_wait. destruct (drv_wait t c (st_br s)) as [ok b'].
  exists [EvWait t c ok]. simpl. auto.
Qed.

Lemma emits_launch P k : P (EvAcquire k) -> emits P (launch k).
Proof.
  intros HP. apply (emits_one _ _ _ HP). intros s. unfold launch.
  destruct (drv_launch k (st_br s)); simpl; auto.
Qed.

End Emits.

Create HintDb emits.
#[export] Hint Resolve emits_mret emits_raise emits_lift emits_bind emits_if
  emits_try_Exception emits_try_all emits_emit emits_log emits_query emits_command
  emits_getenv emits_putenv emits_getcwd emits_get_shot_num emits_put_shot_num
  emits_get_has_browser emits_put_has_browser emits_put_log_level
  emits_find_elements emits_find_element emits_webdriver_wait emits_launch : emits.

#[export] Hint Extern 1 (_ <> _) => discriminate : emits.

(** Split a computation along its binds, tries and conditionals. *)
Ltac emits_split :=
  repeat first [ progress intros | solve [eauto with emits] | apply emits_bind | apply emits_try_all
               | apply emits_try_Exception | apply emits_if ].

Section EmitsMethods.
Context {B E : Type} `{!Driver B E}.
Variable o : obj.
Variable P : event E -> Prop.

(** The logger calls of the methods below are below CRITICAL. *)
Hypothesis HL : forall lvl msg, lvl <> CRITICAL -> P (EvLog lvl msg).
Hypothesis HS : forall f, P (EvScreenshot f).

Lemma emits_error_screenshot : emits P error_screenshot.
Proof. unfold error_screenshot, screenshot_as_file. eauto 20 with emits. Qed.

Lemma emits_do_screenshot : emits P (do_screenshot o).
Proof. unfold do_screenshot, screenshot_as_file. eauto 20 with emits. Qed.

Hint Resolve emits_error_screenshot emits_do_screenshot : emits.

Section Get.
Variable url : string.
Hypothesis HG : P (EvGet url).
Hypothesis HW : forall ok, P (EvWait 15 (CondUrlNot "about:blank") ok).
Hypothesis HZ : P (EvSleep 2).

Lemma emits_get_attempts n : emits P (get_attempts url n).
Proof.
  induction n as [| n IH]; simpl.
  - eauto with emits.
  - unfold browser_get, time_sleep. eauto 20 with emits.
Qed.
End Get.

Lemma emits_get tmpl :
  P (EvGet (page_url o tmpl)) -> (forall ok, P (EvWait 15 (CondUrlNot "about:blank") ok)) ->
  P (EvSleep 2) -> emits P (get o tmpl).
Proof.
  intros. unfold get, browser_get. apply emits_bind; eauto with emits.
  intros. apply emits_bind; eauto with emits. intros. apply emits_get_attempts; auto.
Qed.

Hypothesis HR : forall ok, P (EvWait 20 CondReady ok).
Hypothesis H1 : P (EvSleep 1).

Lemma emits_page_source_loop fuel count : emits P (page_source_loop fuel count).
Proof.
  revert count. induction fuel as [| fuel IH]; intros count; simpl.
  - eauto with emits.
  - unfold time_sleep. eauto 20 with emits.
Qed.

Lemma emits_wait_for_page_load : emits P wait_for_page_load.
Proof.
  unfold wait_for_page_load, wait_for_ajax_load.
  apply emits_bind; eauto with emits. intros. apply emits_page_source_loop.
Qed.

Hint Resolve emits_wait_for_page_load : emits.

Lemma emits_get_page tmpl :
  P (EvGet (page_url o tmpl)) -> (forall ok, P (EvWait 15 (CondUrlNot "about:blank") ok)) ->
  P (EvSleep 2) -> emits P (get o tmpl;; wait_for_page_load;; do_screenshot o).
Proof. intros. apply emits_bind; [apply emits_get; auto |]. eauto with emits. Qed.

Lemma emits_check_login :
  (forall es, P (EvFind (ByXPath MULTI_LOGIN_XPATH) es)) ->
  (forall es, P (EvFind (ByName "yes") es)) ->
  (forall es, P (EvFind (ByName "logout") es)) ->
  (forall e, P (EvClick e)) ->
  emits P (check_login o).
Proof. intros. unfold check_login, click. emits_split. Qed.

Lemma emits_block_loop value apply radios :
  (forall e, P (EvClick e)) -> emits P (block_loop o value apply radios).
Proof.
  intros HC. induction radios as [| r rs IH]; simpl.
  - eauto with emits.
  - unfold get_attribute, click, time_sleep. eauto 30 with emits.
Qed.

Lemma emits_get_browser :
  (forall k, P (EvAcquire k)) -> (forall k v, P (EvSetEnv k v)) -> P (EvWindowSize 1024 768) ->
  emits P (get_browser o).
Proof.
  intros HA HE HW. unfold get_browser. apply emits_bind; [| eauto with emits].
  repeat apply emits_if; eauto with emits.
  apply emits_bind; eauto with emits. intros.
  apply emits_bind; eauto with emits. intros env.
  apply emits_bind; eauto with emits.
  destruct (env !! "DISPLAY"); eauto with emits.
Qed.

End EmitsMethods.

(* ------------------------------------------------------------------ *)
(** ** Configuration lookup *)

(** The names [main] looks up. *)
Definition config_names : list string := ["action"; "router_ip"; "username"; "password"].

(** The value for [name] in a JSON object. *)
Definition json_field (kv : list (string * pyval)) (name : string) : option pyval :=
  option_map snd (find (fun kv1 => String.eqb (fst kv1) name) kv).

(** The precedence as the spec states it: the command-line value when
    truthy, else the query-string value when present and truthy, else the
    config.json value ([file_value]) when present and truthy, else the
    default. *)
Definition spec_config_value (a : args) (environ : gmap string string)
    (file_value : option pyval) (name : string) (default : pyval) : pyval :=
  let cli := match vars a !! name with Some v => v | None => PNone end in
  let from_file := match file_value with
                   | Some v => if truthy v then v else default
                   | None => default
                   end in
  if truthy cli then cli
  else match environ !! "QUERY_STRING" with
       | Some qs =>
           match parse_qs qs !! name with
           | Some vs => if truthy (PList (map PStr vs)) then PList (map PStr vs) else from_file
           | None => from_file
           end
       | None => from_file
       end.

(** Whether the command line or the query string gives [name] a value. *)
Definition cli_or_query_supplies (a : args) (environ : gmap string string) (name : string) : bool :=
  match vars a !! name with Some v => truthy v | None => false end
  || match environ !! "QUERY_STRING" with
     | Some qs => match parse_qs qs !! name with Some _ => true | None => false end
     | None => false
     end.

Lemma parse_qs_values_nonempty (qs n : string) (vs : list string) :
  parse_qs qs !! n = Some vs -> vs <> [].
Proof.
  unfold parse_qs.
  assert (Inv : forall (l : list (string * string)) (acc : gmap string (list string)),
    (forall k ws, acc !! k = Some ws -> ws <> []) ->
    forall k ws, fold_left (fun (acc : gmap string (list string)) '(n, v) =>
      match acc !! n with
      | Some vs => <[n := (vs ++ [v])%list]> acc
      | None => <[n := [v]]> acc
      end) l acc !! k = Some ws -> ws <> []).
  { induction l as [| [n' v] l IH]; intros acc Hacc k ws; simpl; [apply Hacc |].
    apply IH. intros k' ws'. destruct (acc !! n') as [vs0 |] eqn:Hn;
    rewrite lookup_insert; case_decide; subst.
    - intros [= <-]. destruct vs0; discriminate.
    - apply Hacc.
    - intros [= <-]. discriminate.
    - apply Hacc. }
  apply Inv. intros k ws. rewrite lookup_empty. discriminate.
Qed.

Lemma truthy_qs_list (vs : list string) : vs <> [] -> truthy (PList (map PStr vs)) = true.
Proof. destruct vs; [congruence | reflexivity]. Qed.

Lemma vars_config_name (a : args) (name : string) :
  In name config_names -> exists v, vars a !! name = Some v.
Proof.
  simpl. intros [<- | [<- | [<- | [<- | []]]]]; eexists; reflexivity.
Qed.

(** An argparse namespace with nothing given on the command line. *)
Definition no_cli_args : args := mkArgs 0 "chrome-headless" None None None None.

(** C3 (code bug): [getConfigValue] opens config.json whenever neither the
    command line nor the query string supplies the name, so with no
    config.json the fallback to the default is never reached.  Looking up
    [username] with the default ['admin'] raises [FileNotFoundError] instead
    of returning ['admin'], and [main] run as [-i 192.168.1.1 -p pw -a reboot]
    (no [-u], whose help says the default is admin) dies with that uncaught
    exception, exit status 1, before any browser is started. *)
Lemma getConfigValue_no_config_file_cex :
  getConfigValue no_cli_args ∅ CfgMissing "username" (PStr "admin") = inl FileNotFoundError /\
  spec_config_value no_cli_args ∅ None "username" (PStr "admin") = PStr "admin" /\
  getConfigValue no_cli_args ∅ CfgMissing "username" (PStr "admin")
    <> inr (spec_config_value no_cli_args ∅ None "username" (PStr "admin")) /\
  (let a := mkArgs 0 "chrome-headless" (Some "192.168.1.1") None (Some "pw") (Some "reboot") in
   main a CfgMissing (Mock.init Mock.router ∅) = (inl FileNotFoundError, Mock.init Mock.router ∅) /\
   exit_status (fst (main a CfgMissing (Mock.init Mock.router ∅))) = 1).
Proof.
  split; [reflexivity | split; [reflexivity | split; [discriminate |]]].
  cbv zeta. split; vm_compute; reflexivity.
Qed.

(** For [action], [router_ip], [username] and [password]:
    when config.json holds a JSON object, [getConfigValue] returns the
    truthy command-line value, else the query-string value, else the truthy
    config.json value, else the default; when config.json is missing, the
    same holds as long as the command line or the query string supplies the
    name, and otherwise the lookup raises [FileNotFoundError]. *)
Theorem getConfigValue_precedence (a : args) (environ : gmap string string)
    (cfg : cfgfile) (name : string) (default : pyval) :
  In name config_names ->
  (forall kv, cfg = CfgJson (PDict kv) ->
     getConfigValue a environ cfg name default
     = inr (spec_config_value a environ (json_field kv name) name default)) /\
  (cfg = CfgMissing ->
     getConfigValue a environ cfg name default
     = if cli_or_query_supplies a environ name
       then inr (spec_config_value a environ None name default)
       else inl FileNotFoundError).
Proof.
  intros Hin. destruct (vars_config_name a name Hin) as [v Hv].
  unfold getConfigValue, spec_config_value, cli_or_query_supplies, query_step, config_step.
  rewrite Hv. split.
  - intros kv ->. simpl. unfold json_field.
    destruct (truthy v) eqn:Tv; [reflexivity |].
    destruct (environ !! "QUERY_STRING") as [qs |].
    + destruct (parse_qs qs !! name) as [vs |] eqn:Hq.
      * apply parse_qs_values_nonempty in Hq. destruct vs; [congruence | reflexivity].
      * destruct (find _ kv) as [[k w] |]; simpl; [reflexivity | rewrite Tv; reflexivity].
    + destruct (find _ kv) as [[k w] |]; simpl; [reflexivity | rewrite Tv; reflexivity].
  - intros ->. simpl.
    destruct (truthy v) eqn:Tv; [reflexivity |].
    destruct (environ !! "QUERY_STRING") as [qs |]; [| reflexivity].
    destruct (parse_qs qs !! name) as [vs |] eqn:Hq; [| reflexivity].
    apply parse_qs_values_nonempty in Hq. destruct vs; [congruence | reflexivity].
Qed.

Lemma getConfigValue_precedence_witness :
  In "username" config_names /\
  getConfigValue no_cli_args (<["QUERY_STRING" := "password=pw"]> ∅)
    (CfgJson (PDict [("username", PStr "root")])) "username" (PStr "admin") = inr (PStr "root").
Proof.
  split; [simpl; tauto |].
  rewrite (proj1 (getConfigValue_precedence no_cli_args (<["QUERY_STRING" := "password=pw"]> ∅)
             (CfgJson (PDict [("username", PStr "root")])) "username" (PStr "admin")
             ltac:(simpl; tauto)) _ eq_refl).
  reflexivity.
Defined.

(** C9: whenever the value comes from the query string (no truthy
    command-line value, QUERY_STRING set and [name] in it), [getConfigValue]
    returns the list [parse_qs] gives for [name], a non-empty list of
    strings, not a single string. *)
Theorem getConfigValue_query_string_list (a : args) (environ : gmap string string)
    (cfg : cfgfile) (name : string) (default : pyval) (qs : string) (vs : list string) :
  match vars a !! name with Some v => truthy v = false | None => True end ->
  environ !! "QUERY_STRING" = Some qs ->
  parse_qs qs !! name = Some vs ->
  getConfigValue a environ cfg name default = inr (PList (map PStr vs)) /\ vs <> [].
Proof.
  intros Hcli Henv Hq.
  assert (Hne : vs <> []) by (eapply parse_qs_values_nonempty; eauto).
  split; [| exact Hne].
  unfold getConfigValue, query_step.
  destruct (vars a !! name) as [v |].
  - rewrite Hcli, Henv, Hq. cbv zeta. rewrite truthy_qs_list by exact Hne. reflexivity.
  - rewrite Henv, Hq. cbv zeta. rewrite truthy_qs_list by exact Hne. reflexivity.
Qed.

Lemma getConfigValue_query_string_list_witness :
  getConfigValue no_cli_args (<["QUERY_STRING" := "router_ip=10.0.0.1"]> ∅) CfgMissing
    "router_ip" (PBool false) = inr (PList [PStr "10.0.0.1"]) /\ ["10.0.0.1"] <> [].
Proof.
  apply (getConfigValue_query_string_list no_cli_args _ CfgMissing "router_ip" (PBool false)
           "router_ip=10.0.0.1" ["10.0.0.1"]); reflexivity.
Defined.

(* ------------------------------------------------------------------ *)
(** ** Reading traces *)

Section Traces.
Context {E : Type}.

Definition is_click (ev : event E) : bool := match ev with EvClick _ => true | _ => false end.
Definition is_critical (ev : event E) : bool :=
  match ev with EvLog CRITICAL _ => true | _ => false end.
Definition is_error_or_critical (ev : event E) : bool :=
  match ev with EvLog ERROR _ | EvLog CRITICAL _ => true | _ => false end.
Definition clicks (t : list (event E)) : list E :=
  flat_map (fun ev => match ev with EvClick e => [e] | _ => [] end) t.
Definition no_click (ev : event E) : Prop := is_click ev = false.
Definition is_get_of (u : string) (ev : event E) : bool :=
  match ev with EvGet u' => String.eqb u' u | _ => false end.

(** The URLs requested, the waits made and the sleeps taken, in order. *)
Definition gets (t : list (event E)) : list string :=
  flat_map (fun ev => match ev with EvGet u => [u] | _ => [] end) t.
Definition waits (t : list (event E)) : list (nat * cond * bool) :=
  flat_map (fun ev => match ev with EvWait n c ok => [(n, c, ok)] | _ => [] end) t.
Definition sleeps (t : list (event E)) : list nat :=
  flat_map (fun ev => match ev with EvSleep n => [n] | _ => [] end) t.

End Traces.

Import Mock.

(** C4 (code_bug): with the router credentials on the command line, no
    [--action] flag, and the action [reboot] given only in config.json (or
    only in the query string), [getConfigValue] resolves the action to
    ['reboot'], but [main] builds the script with [args.action] ([None]):
    the run logs in, performs no action (no home page request, no click)
    and exits with status 0. *)
Theorem main_action_outside_cli_not_performed :
  let cfg := CfgJson (PDict [("action", PStr "reboot")]) in
  let qenv := <["QUERY_STRING" := "action=reboot"]> (∅ : gmap string string) in
  getConfigValue cli_no_action ∅ cfg "action" (PBool false) = inr (PStr "reboot") /\
  getConfigValue cli_no_action qenv CfgMissing "action" (PBool false) = inr (PList [PStr "reboot"]) /\
  (let '(r, s) := main cli_no_action cfg (init router ∅) in
   r = inr tt /\ existsb is_click (st_trace s) = false /\
   existsb (is_get_of (page_url (the_obj "reboot") HOME_URL)) (st_trace s) = false) /\
  (let '(r, s) := main cli_no_action CfgMissing (init router qenv) in
   r = inr tt /\ existsb is_click (st_trace s) = false /\
   existsb (is_get_of (page_url (the_obj "reboot") HOME_URL)) (st_trace s) = false).
Proof. vm_compute. repeat split. Qed.

(** C5 (as stated, it fails): when the router never answers, [main] ends
    with an uncaught exception (exit status 1) but nothing is logged at
    CRITICAL level. *)
Lemma page_load_failure_no_critical_cex :
  let '(r, s) := main (cli (Some "reboot")) CfgMissing (init router_down ∅) in
  exit_status r = 1 /\ existsb is_critical (st_trace s) = false.
Proof. vm_compute. split; reflexivity. Qed.

(* ------------------------------------------------------------------ *)
(** ** [get] when the page never loads *)

Section GetExhausted.
Context {B E : Type} `{!Driver B E}.
Local Open Scope list_scope.


Lemma bind_err {A C} (m : M B E A) (f : A -> M B E C) e s :
  fst (m s) = inl e -> (m ≫= f) s = (inl e, snd (m s)).
Proof. unfold mbind, M_bind. destruct (m s) as [[e' | x] s']; simpl; congruence. Qed.

Lemma error_screenshot_raises (s : st B E) : fst (error_screenshot s) = inl (NameError "codecs").
Proof.
  unfold error_screenshot, mbind, M_bind, getcwd, screenshot_as_file, emit, log, query, raise.
  simpl. repeat case_match; simpl in *; congruence.
Qed.

Definition quiet (ev : event E) : Prop := gets [ev] = [] /\ waits [ev] = [] /\ sleeps [ev] = [].

Lemma quiet_nil t : Forall quiet t -> gets t = [] /\ waits t = [] /\ sleeps t = [].
Proof.
  induction 1 as [| ev t [Hg [Hw Hs]] _ [IHg [IHw IHs]]]; [auto |].
  unfold gets, waits, sleeps in *. simpl in *. rewrite IHg, IHw, IHs.
  destruct ev; simpl in *; auto; discriminate.
Qed.

Variable Q : B -> Prop.
Variable url : string.
Hypothesis HQw : forall b, Q b ->
  fst (drv_wait 15 (CondUrlNot "about:blank") b) = false /\ Q (snd (drv_wait 15 (CondUrlNot "about:blank") b)).
Hypothesis HQg : forall b, Q b -> Q (drv_get url b).
Hypothesis HQs : forall b, Q b -> Q (drv_sleep 2 b).

Lemma get_attempts_exhausted n (s : st B E) :
  Q (st_br s) ->
  fst (get_attempts url n s) = inl (NameError "codecs") /\
  exists t, st_trace (snd (get_attempts url n s)) = st_trace s ++ t /\
    gets t = repeat url n /\ waits t = repeat (15, CondUrlNot "about:blank", false) n /\
    sleeps t = repeat 2 n.
Proof.
  revert s. induction n as [| n IH]; intros s Hq.
  - simpl get_attempts. rewrite bind_err with (e := NameError "codecs") by apply error_screenshot_raises.
    split; [reflexivity |]. simpl.
    destruct (emits_error_screenshot (E:=E) quiet) with (s := s) as [t [Ht Ft]].
    + intros lvl msg _. repeat split.
    + intros f. repeat split.
    + exists t. split; [exact Ht |]. apply quiet_nil, Ft.
  - destruct (HQw _ Hq) as [Hf Hq'].
    destruct (drv_wait 15 (CondUrlNot "about:blank") (st_br s)) as [ok b'] eqn:Hw.
    simpl in Hf, Hq'. subst ok.
    simpl get_attempts. unfold mbind, M_bind, try_Exception, webdriver_wait, log, browser_get, time_sleep, command.
    rewrite Hw. simpl.
    destruct (Nat.leb _ _); simpl;
    match goal with |- context [get_attempts url n ?s1] =>
      destruct (IH s1) as [IHr [t [Ht [Hg [Hwt Hs]]]]]; [simpl; auto |] end;
    (split; [exact IHr |]); eexists; (split; [rewrite Ht; simpl; rewrite <- !app_assoc; reflexivity |]);
    unfold gets, waits, sleeps in *; simpl; rewrite Hg, Hwt, Hs; auto.
Qed.
End GetExhausted.

(** C6 (code_bug): when every wait for the URL to leave about:blank fails,
    [get] makes the initial request and 5 retries (6 requests), 5 waits of
    15 seconds and 5 sleeps of 2 seconds, and then fails with [NameError]
    ([codecs] is not imported by the script), not with [RuntimeError]. *)
Theorem get_retry_budget_raises_NameError {B E} `{!Driver B E} (Q : B -> Prop)
    (o : obj) (tmpl : string) (s : st B E) :
  Q (st_br s) ->
  (forall b, Q b -> fst (drv_wait 15 (CondUrlNot "about:blank") b) = false /\
                    Q (snd (drv_wait 15 (CondUrlNot "about:blank") b))) ->
  (forall b, Q b -> Q (drv_get (page_url o tmpl) b)) ->
  (forall b, Q b -> Q (drv_sleep 2 b)) ->
  fst (get o tmpl s) = inl (NameError "codecs") /\
  (forall msg, fst (get o tmpl s) <> inl (RuntimeError msg)) /\
  exists t, st_trace (snd (get o tmpl s)) = (st_trace s ++ t)%list /\
    gets t = repeat (page_url o tmpl) 6 /\
    waits t = repeat (15, CondUrlNot "about:blank", false) 5 /\
    sleeps t = repeat 2 5.
Proof.
  intros Hq HQw HQg HQs.
  unfold get, browser_get, command, log, mbind, M_bind. cbn -[get_attempts].
  destruct (Nat.leb _ _); cbn -[get_attempts];
  match goal with |- context [get_attempts ?u 5 ?s1] =>
    destruct (get_attempts_exhausted Q u HQw HQg HQs 5 s1) as [Hr [t [Ht [Hg [Hw Hs]]]]];
    [simpl; auto |] end;
  (split; [exact Hr | split; [rewrite Hr; discriminate |]]);
  eexists; (split; [rewrite Ht; simpl; rewrite <- !app_assoc; reflexivity |]);
  unfold gets, waits, sleeps in *; simpl; rewrite Hg, Hw, Hs; auto.
Qed.

(** A router that never answers: the browser stays on about:blank. *)
Definition stuck (b : mstate) : Prop := m_up b = false /\ m_url b = "about:blank".

Definition launched_down : st mstate melem :=
  mkSt (with_url "about:blank" router_down) [] ∅ "/var/www" INFO true 1.

Lemma get_retry_budget_raises_NameError_witness :
  fst (get (the_obj "reboot") START_URL launched_down) = inl (NameError "codecs") /\
  (forall msg, fst (get (the_obj "reboot") START_URL launched_down) <> inl (RuntimeError msg)) /\
  exists t, st_trace (snd (get (the_obj "reboot") START_URL launched_down))
            = (st_trace launched_down ++ t)%list /\
    gets t = repeat (page_url (the_obj "reboot") START_URL) 6 /\
    waits t = repeat (15, CondUrlNot "about:blank", false) 5 /\
    sleeps t = repeat 2 5.
Proof.
  apply (get_retry_budget_raises_NameError stuck).
  - split; reflexivity.
  - intros b [Hu Hb]. simpl. rewrite Hb. split; [reflexivity | split; assumption].
  - intros b [Hu Hb]. simpl. rewrite Hu. split; assumption.
  - intros b Hb. exact Hb.
Defined.

(* ------------------------------------------------------------------ *)
(** ** Computations that succeed, and the elements they click *)

Section Clicking.
Context {B E : Type} `{!Driver B E}.
Local Open Scope list_scope.

(** [clicking m x cs]: from any state, [m] returns [x] and clicks exactly
    the elements [cs], in order. *)
Definition clicking {A} (m : M B E A) (x : A) (cs : list E) : Prop :=
  forall s, fst (m s) = inr x /\
            exists t, st_trace (snd (m s)) = st_trace s ++ t /\ clicks t = cs.

Lemma clicks_app (t1 t2 : list (event E)) : clicks (t1 ++ t2) = clicks t1 ++ clicks t2.
Proof. unfold clicks. apply flat_map_app. Qed.

Lemma clicks_no_click (t : list (event E)) : Forall no_click t -> clicks t = [].
Proof.
  induction 1 as [| ev t Hev _ IH]; [reflexivity |].
  unfold no_click, is_click, clicks in *. simpl. rewrite IH. destruct ev; try discriminate; reflexivity.
Qed.

Lemma clicking_bind {A C} (m : M B E A) (f : A -> M B E C) x y cs1 cs2 :
  clicking m x cs1 -> clicking (f x) y cs2 -> clicking (m ≫= f) y (cs1 ++ cs2).
Proof.
  intros Hm Hf s. unfold mbind, M_bind.
  destruct (Hm s) as [Hx [t1 [H1 C1]]]. destruct (m s) as [r1 s1]. simpl in *. subst r1.
  destruct (Hf s1) as [Hy [t2 [H2 C2]]]. split; [exact Hy |].
  exists (t1 ++ t2). rewrite H2, H1, app_assoc, clicks_app, C1, C2. auto.
Qed.

(** A computation that always succeeds with [x] and never clicks. *)
Lemma clicking_quiet {A} (m : M B E A) x :
  (forall s, fst (m s) = inr x) -> emits no_click m -> clicking m x [].
Proof.
  intros Hx He s. split; [apply Hx |].
  destruct (He s) as [t [Ht Ft]]. exists t. split; [exact Ht | apply clicks_no_click, Ft].
Qed.

Lemma clicking_mret {A} (x : A) : clicking (mret x) x [].
Proof. intros s. split; [reflexivity |]. exists []. rewrite app_nil_r. auto. Qed.

Lemma clicking_log lvl msg : clicking (log lvl msg) tt [].
Proof.
  apply clicking_quiet.
  - intros s. unfold log. destruct (Nat.leb _ _); reflexivity.
  - apply emits_log. reflexivity.
Qed.

Lemma clicking_click e : clicking (click e) tt [e].
Proof. intros s. split; [reflexivity |]. exists [EvClick e]. auto. Qed.

Lemma clicking_time_sleep n : clicking (time_sleep n) tt [].
Proof.
  apply clicking_quiet; [reflexivity |]. apply emits_command. reflexivity.
Qed.

Lemma do_screenshot_ok (o : obj) (s : st B E) : fst (do_screenshot o s) = inr tt.
Proof.
  unfold do_screenshot. destruct (o_screenshot o); [| reflexivity].
  unfold mbind, M_bind, getcwd, get_shot_num, screenshot_as_file, emit, query, log, put_shot_num.
  simpl. destruct (Nat.leb _ _); reflexivity.
Qed.

Lemma clicking_do_screenshot (o : obj) : clicking (do_screenshot o) tt [].
Proof.
  apply clicking_quiet; [apply do_screenshot_ok |].
  apply emits_do_screenshot; reflexivity.
Qed.

Lemma clicking_wait_for_page_load :
  (forall s, fst (wait_for_page_load s) = inr tt) -> clicking wait_for_page_load tt [].
Proof.
  intros Hw. apply clicking_quiet; [exact Hw |].
  apply emits_wait_for_page_load; reflexivity.
Qed.

End Clicking.

(* ------------------------------------------------------------------ *)
(** ** Blocking and unblocking services *)

(** The [value] attribute of the radio that [block_services value] selects. *)
Definition block_target (value : bool) : string :=
  if value then "perschedule" else "never".

Section Block.
Context {B E : Type} `{!Driver B E}.
Variable o : obj.
Local Open Scope list_scope.

Lemma block_cond value (x : option string) :
  (value && attr_is x "perschedule") || (negb value && attr_is x "never") =
  attr_is x (block_target value).
Proof. destruct value; simpl; [apply orb_false_r | reflexivity]. Qed.

Lemma clicking_eq {A} (m : M B E A) x cs cs' :
  clicking m x cs -> cs = cs' -> clicking m x cs'.
Proof. intros H ->. exact H. Qed.

Ltac clicking_chain Hw :=
  repeat (eapply clicking_bind;
          [first [ apply clicking_log | apply clicking_click | apply clicking_do_screenshot
                 | apply clicking_time_sleep | apply (clicking_wait_for_page_load Hw) ] |]);
  apply clicking_mret.

(** The loop clicks the first radio whose value is the target, then
    [apply]; when there is none it does nothing at all. *)
Lemma block_loop_spec value apply radios s :
  (forall s', fst (wait_for_page_load s') = inr tt) ->
  match find (fun r => attr_is (drv_attr r "value" (st_br s)) (block_target value)) radios with
  | Some r =>
      fst (block_loop o value apply radios s) = inr true /\
      exists t, st_trace (snd (block_loop o value apply radios s)) = st_trace s ++ t /\
                clicks t = [r; apply]
  | None => block_loop o value apply radios s = (inr false, s)
  end.
Proof.
  intros Hw. induction radios as [| r rs IH]; [reflexivity |].
  cbn [find]. remember (block_loop o value apply (r :: rs) s) as res eqn:Hres.
  cbn [block_loop] in Hres. unfold mbind at 1, M_bind at 1, get_attribute, query in Hres.
  cbn beta iota in Hres. rewrite block_cond in Hres.
  destruct (attr_is (drv_attr r "value" (st_br s)) (block_target value)); [| subst res; exact IH].
  assert (Hc : clicking
    (log INFO ("Clicking " ++ dq ++ py_str (opt_str (drv_attr r "value" (st_br s))) ++ dq ++ " block option");;
     click r;; do_screenshot o;; log INFO "Applying block option";; click apply;;
     time_sleep 1;; wait_for_page_load;; do_screenshot o;; mret true) true [r; apply]).
  { eapply clicking_eq; [clicking_chain Hw | reflexivity]. }
  subst res.
  exact (Hc s).
Qed.

End Block.

(** C2: [block_services value] clicks the first radio named [skeyword]
    whose [value] attribute is [perschedule] (block) or [never] (unblock),
    then the [apply] button, and returns [True]; when no such radio exists
    it clicks nothing and returns [False]. *)
Theorem block_services_selects_radio {B E : Type} `{!Driver B E} (o : obj) (value : bool)
    (a : E) (rest : list E) (s : st B E) :
  drv_find (ByName "apply") (st_br s) = a :: rest ->
  (forall s', fst (wait_for_page_load s') = inr tt) ->
  let radios := drv_find (ByName "skeyword") (st_br s) in
  match find (fun r => attr_is (drv_attr r "value" (st_br s)) (block_target value)) radios with
  | Some r =>
      fst (block_services o value s) = inr true /\
      (exists t, st_trace (snd (block_services o value s)) = (st_trace s ++ t)%list /\
                 clicks t = [r; a]) /\
      In r radios /\ drv_attr r "value" (st_br s) = Some (block_target value)
  | None =>
      block_services o value s =
        (inr false, add_ev (EvFind (ByName "skeyword") radios) (add_ev (EvFind (ByName "apply") (a :: rest)) s))
  end.
Proof.
  intros Ha Hw radios.
  remember (block_services o value s) as res eqn:Hres.
  unfold block_services, find_element, find_elements, mbind, M_bind, query, emit, mret, M_ret in Hres.
  cbn in Hres. rewrite Ha in Hres. cbn in Hres.
  set (s2 := add_ev (EvFind (ByName "skeyword") radios) (add_ev (EvFind (ByName "apply") (a :: rest)) s)).
  assert (Hres2 : res = block_loop o value a radios s2) by (rewrite Hres; reflexivity).
  clear Hres. fold s2.
  pose proof (block_loop_spec o value a radios s2 Hw) as Hl.
  change (st_br s2) with (st_br s) in Hl.
  destruct (find _ radios) as [r |] eqn:Hf.
  - apply find_some in Hf as [Hin Hr].
    destruct Hl as [Hok [t [Ht Hc]]]. rewrite Hres2. split; [exact Hok |]. split.
    + exists ([EvFind (ByName "apply") (a :: rest); EvFind (ByName "skeyword") radios] ++ t)%list.
      rewrite Ht. cbn. rewrite <- !app_assoc. split; [reflexivity | exact Hc].
    + split; [exact Hin |]. unfold attr_is in Hr.
      destruct (drv_attr r "value" (st_br s)); [| discriminate].
      apply String.eqb_eq in Hr. subst. reflexivity.
  - rewrite Hres2. exact Hl.
Qed.

Lemma mock_wait_for_page_load (s : st mstate melem) : fst (wait_for_page_load s) = inr tt.
Proof. reflexivity. Qed.

Definition on_block_page : st mstate melem :=
  init (with_url "http://admin:pw@192.168.1.1/BKS_service.htm" router) ∅.

Lemma block_services_selects_radio_witness :
  drv_find (ByName "apply") (st_br on_block_page) = [apply_btn] /\
  (forall s', fst (wait_for_page_load s') = inr tt) /\
  let radios := drv_find (ByName "skeyword") (st_br on_block_page) in
  match find (fun r => attr_is (drv_attr r "value" (st_br on_block_page)) (block_target true)) radios with
  | Some r =>
      fst (block_services (the_obj "block") true on_block_page) = inr true /\
      (exists t, st_trace (snd (block_services (the_obj "block") true on_block_page)) =
                 (st_trace on_block_page ++ t)%list /\ clicks t = [r; apply_btn]) /\
      In r radios /\ drv_attr r "value" (st_br on_block_page) = Some (block_target true)
  | None =>
      block_services (the_obj "block") true on_block_page =
        (inr false, add_ev (EvFind (ByName "skeyword") radios)
                      (add_ev (EvFind (ByName "apply") [apply_btn]) on_block_page))
  end.
Proof.
  split; [reflexivity |]. split; [exact mock_wait_for_page_load |].
  apply (block_services_selects_radio (the_obj "block") true apply_btn [] on_block_page).
  - reflexivity.
  - exact mock_wait_for_page_load.
Defined.

(* ------------------------------------------------------------------ *)
(** ** Rebooting *)

(** C8: for the reboot action, once the home page has loaded, [run_action]
    clicks the element with id [reboot], sleeps a second, and accepts the
    confirmation alert; nothing else is appended to the trace. *)
Theorem reboot_clicks_and_accepts {B E : Type} `{!Driver B E} (o : obj)
    (s s1 : st B E) (e : E) (rest : list E) :
  o_action o = PStr ACTION_REBOOT ->
  get_home_page o s = (inr tt, s1) ->
  drv_find (ById "reboot") (st_br s1) = e :: rest ->
  drv_alert (drv_sleep 1 (drv_click e (st_br s1))) = true ->
  fst (run_action o s) = inr tt /\
  st_trace (snd (run_action o s)) =
    (st_trace s1 ++ [EvFind (ById "reboot") (e :: rest); EvClick e; EvSleep 1; EvAcceptAlert])%list /\
  st_br (snd (run_action o s)) = drv_accept (drv_sleep 1 (drv_click e (st_br s1))).
Proof.
  intros Hact Hhome Hfind Halert.
  remember (run_action o s) as res eqn:Hres.
  unfold run_action in Hres. rewrite Hact in Hres. cbn -[get_home_page reboot] in Hres.
  unfold mbind at 1 2, M_bind at 1 2 in Hres. cbn -[get_home_page reboot] in Hres. rewrite Hhome in Hres.
  unfold reboot, find_element, find_elements, switch_to_alert, click, time_sleep, command,
    query, emit, mbind, M_bind, mret, M_ret in Hres.
  cbn in Hres. rewrite Hfind in Hres. cbn in Hres. rewrite Halert in Hres. cbn in Hres.
  subst res. cbn. rewrite <- !app_assoc. auto.
Qed.

Definition on_home_page : st mstate melem :=
  init (with_url "http://admin:pw@192.168.1.1/" router) ∅.

Lemma reboot_clicks_and_accepts_witness :
  let o := the_obj ACTION_REBOOT in
  let s1 := snd (get_home_page o on_home_page) in
  o_action o = PStr ACTION_REBOOT /\
  get_home_page o on_home_page = (inr tt, s1) /\
  drv_find (ById "reboot") (st_br s1) = [reboot_btn] /\
  drv_alert (drv_sleep 1 (drv_click reboot_btn (st_br s1))) = true /\
  fst (run_action o on_home_page) = inr tt /\
  st_trace (snd (run_action o on_home_page)) =
    (st_trace s1 ++ [EvFind (ById "reboot") [reboot_btn]; EvClick reboot_btn; EvSleep 1; EvAcceptAlert])%list /\
  st_br (snd (run_action o on_home_page)) = drv_accept (drv_sleep 1 (drv_click reboot_btn (st_br s1))).
Proof.
  cbv zeta.
  assert (Hh : get_home_page (the_obj ACTION_REBOOT) on_home_page =
               (inr tt, snd (get_home_page (the_obj ACTION_REBOOT) on_home_page))) by (vm_compute; reflexivity).
  assert (Hf : drv_find (ById "reboot") (st_br (snd (get_home_page (the_obj ACTION_REBOOT) on_home_page)))
               = [reboot_btn]) by (vm_compute; reflexivity).
  assert (Ha : drv_alert (drv_sleep 1 (drv_click reboot_btn
                 (st_br (snd (get_home_page (the_obj ACTION_REBOOT) on_home_page))))) = true) by (vm_compute; reflexivity).
  destruct (reboot_clicks_and_accepts (the_obj ACTION_REBOOT) on_home_page _ reboot_btn [] eq_refl Hh Hf Ha)
    as [H1 [H2 H3]].
  exact (conj eq_refl (conj Hh (conj Hf (conj Ha (conj H1 (conj H2 H3)))))).
Defined.

(* ------------------------------------------------------------------ *)
(** ** The login phase *)

(** The events the first part of [run] may produce before the login is
    checked: the only page fetched is the start page, the only elements
    looked up are the multi-login form, its [yes] button and [logout], and
    nothing critical is logged, no alert is accepted and the browser is not
    quit. *)
Definition login_phase_event {E} (o : obj) (ev : event E) : Prop :=
  match ev with
  | EvGet u => u = page_url o START_URL
  | EvFind loc _ => loc = ByXPath MULTI_LOGIN_XPATH \/ loc = ByName "yes" \/ loc = ByName "logout"
  | EvLog CRITICAL _ => False
  | EvAcceptAlert => False
  | EvQuit => False
  | EvPrint _ => False
  | _ => True
  end.

Section Runs.
Context {B E : Type} `{!Driver B E}.
Local Open Scope list_scope.

Lemma log_result lvl msg (s : st B E) : log lvl msg s = (inr tt, snd (log lvl msg s)).
Proof. unfold log. destruct (Nat.leb _ _); reflexivity. Qed.

Lemma log_critical msg (s : st B E) : log CRITICAL msg s = (inr tt, add_ev (EvLog CRITICAL msg) s).
Proof. unfold log. destruct (st_log_level s); reflexivity. Qed.

Lemma bind_inr {A C} (m : M B E A) (f : A -> M B E C) s x s' :
  m s = (inr x, s') -> (m ≫= f) s = f x s'.
Proof. intros H. unfold mbind, M_bind. rewrite H. reflexivity. Qed.

Lemma bind_inl {A C} (m : M B E A) (f : A -> M B E C) s e s' :
  m s = (inl e, s') -> (m ≫= f) s = (inl e, s').
Proof. intros H. unfold mbind, M_bind. rewrite H. reflexivity. Qed.

Lemma getenv_run (s : st B E) : getenv s = (inr (st_environ s), s).
Proof. reflexivity. Qed.

Lemma put_has_browser_run h (s : st B E) : put_has_browser h s = (inr tt, set_has_browser h s).
Proof. reflexivity. Qed.

Lemma emits_run {A} (P : event E -> Prop) (m : M B E A) s r s' :
  emits P m -> m s = (r, s') -> exists t, st_trace s' = st_trace s ++ t /\ Forall P t.
Proof. intros He Hm. destruct (He s) as [t Ht]. rewrite Hm in Ht. exists t. exact Ht. Qed.

Lemma appended_trans (P : event E -> Prop) (s1 s2 s3 : st B E) :
  (exists t, st_trace s2 = st_trace s1 ++ t /\ Forall P t) ->
  (exists t, st_trace s3 = st_trace s2 ++ t /\ Forall P t) ->
  exists t, st_trace s3 = st_trace s1 ++ t /\ Forall P t.
Proof.
  intros [t1 [H1 F1]] [t2 [H2 F2]]. exists (t1 ++ t2).
  rewrite H2, H1, app_assoc. split; [reflexivity | apply Forall_app; auto].
Qed.

Ltac login_phase :=
  intros; repeat match goal with l : level |- _ => destruct l end;
  cbn; auto; try congruence.

Lemma emits_login_phase (o : obj) :
  emits (login_phase_event o) (log DEBUG "Getting page..." : M B E unit) /\
  emits (login_phase_event o) (get_browser o) /\
  emits (login_phase_event o) (get_start_page o) /\
  emits (login_phase_event o) (check_login o).
Proof.
  split; [apply emits_log; exact I |]. split; [| split].
  - apply emits_get_browser; login_phase.
  - unfold get_start_page. apply emits_get_page; login_phase.
  - apply emits_check_login; login_phase.
Qed.

End Runs.

(** C1: when [check_login] returns [False], [run] logs [Login failed] at
    CRITICAL, quits the browser and raises [SystemExit(1)], which [main]
    does not catch: the process exits with status 1.  Up to that point the
    only page fetched is the start page and no action element (the reboot
    button, the block radios, [apply]) has been looked up; after the
    failed check only the critical entry and the quit are appended. *)
Theorem login_failure_exits {B E : Type} `{!Driver B E} (a : args) (cfg : cfgfile) (o : obj)
    (s s0 s1 s2 s3 : st B E) :
  main_config a cfg s = (inr o, s0) ->
  get_browser o (snd (log DEBUG "Getting page..." s0)) = (inr tt, s1) ->
  get_start_page o (set_has_browser true s1) = (inr tt, s2) ->
  check_login o s2 = (inr false, s3) ->
  main a cfg s =
    (inl (SystemExit (ExitCode 1)),
     add_ev EvQuit (set_br (drv_quit (st_br s3)) (add_ev (EvLog CRITICAL "Login failed") s3))) /\
  exit_status (fst (main a cfg s)) = 1 /\
  exists t, st_trace s3 = (st_trace s0 ++ t)%list /\ Forall (login_phase_event o) t.
Proof.
  intros Hc Hb Hp Hl.
  assert (Hm : main a cfg s =
    (inl (SystemExit (ExitCode 1)),
     add_ev EvQuit (set_br (drv_quit (st_br s3)) (add_ev (EvLog CRITICAL "Login failed") s3)))).
  { assert (Hr : run o s0 =
      (inl (SystemExit (ExitCode 1)),
       add_ev EvQuit (set_br (drv_quit (st_br s3)) (add_ev (EvLog CRITICAL "Login failed") s3)))).
    { unfold run. rewrite (bind_inr _ _ _ _ _ (log_result DEBUG "Getting page..." s0)).
      unfold try_Exception, run_body. rewrite (bind_inr _ _ _ _ _ Hb).
      rewrite (bind_inr _ _ _ _ _ (put_has_browser_run true s1)).
      rewrite (bind_inr _ _ _ _ _ Hp), (bind_inr _ _ _ _ _ Hl).
      unfold mbind, M_bind. cbn -[log run_action]. rewrite log_critical. reflexivity. }
    unfold main. rewrite (bind_inr _ _ _ _ _ (getenv_run s)).
    rewrite (bind_inr _ _ _ _ _ Hc). rewrite (bind_inl _ _ _ _ _ Hr). reflexivity. }
  split; [exact Hm |]. split; [rewrite Hm; reflexivity |].
  destruct (emits_login_phase (B:=B) (E:=E) o) as [E0 [E1 [E2 E3]]].
  eapply appended_trans; [eapply emits_run; [exact E0 | apply log_result] |].
  eapply appended_trans; [eapply emits_run; [exact E1 | exact Hb] |].
  change (st_trace s1) with (st_trace (set_has_browser true s1)).
  eapply appended_trans; [| eapply emits_run; [exact E3 | exact Hl]].
  eapply emits_run; [exact E2 | exact Hp].
Qed.

(** A router whose start page shows no [logout] button. *)
Definition router_login_fails : mstate :=
  mkM [("http://admin:pw@192.168.1.1/", [])] true "" false.

Lemma login_failure_exits_witness :
  let a := cli (Some ACTION_REBOOT) in
  let cfg := CfgJson (PDict []) in
  let o := the_obj ACTION_REBOOT in
  let s := init router_login_fails ∅ in
  let s0 := snd (main_config a cfg s) in
  let s1 := snd (get_browser o (snd (log DEBUG "Getting page..." s0))) in
  let s2 := snd (get_start_page o (set_has_browser true s1)) in
  let s3 := snd (check_login o s2) in
  main_config a cfg s = (inr o, s0) /\
  get_browser o (snd (log DEBUG "Getting page..." s0)) = (inr tt, s1) /\
  get_start_page o (set_has_browser true s1) = (inr tt, s2) /\
  check_login o s2 = (inr false, s3) /\
  (main a cfg s =
     (inl (SystemExit (ExitCode 1)),
      add_ev EvQuit (set_br (drv_quit (st_br s3)) (add_ev (EvLog CRITICAL "Login failed") s3))) /\
   exit_status (fst (main a cfg s)) = 1 /\
   exists t, st_trace s3 = (st_trace s0 ++ t)%list /\ Forall (login_phase_event o) t).
Proof.
  intros a cfg o s s0 s1 s2 s3.
  assert (H0 : main_config a cfg s = (inr o, s0)) by (vm_compute; reflexivity).
  assert (H1 : get_browser o (snd (log DEBUG "Getting page..." s0)) = (inr tt, s1))
    by (vm_compute; reflexivity).
  assert (H2 : get_start_page o (set_has_browser true s1) = (inr tt, s2)) by (vm_compute; reflexivity).
  assert (H3 : check_login o s2 = (inr false, s3)) by (vm_compute; reflexivity).
  exact (conj H0 (conj H1 (conj H2 (conj H3 (login_failure_exits a cfg o s s0 s1 s2 s3 H0 H1 H2 H3))))).
Defined.

(* ------------------------------------------------------------------ *)
(** ** A block page without the wanted radio *)

Lemma block_services_found {B E : Type} `{!Driver B E} (o : obj) (value : bool)
    (a : E) (rest : list E) (s : st B E) :
  drv_find (ByName "apply") (st_br s) = a :: rest ->
  block_services o value s =
    block_loop o value a (drv_find (ByName "skeyword") (st_br s))
      (add_ev (EvFind (ByName "skeyword") (drv_find (ByName "skeyword") (st_br s)))
              (add_ev (EvFind (ByName "apply") (a :: rest)) s)).
Proof.
  intros Ha.
  unfold block_services, find_element, find_elements, mbind, M_bind, query, emit, mret, M_ret.
  cbn. rewrite Ha. reflexivity.
Qed.

Lemma py_eq_str_reboot_block o :
  o_action o = PStr ACTION_BLOCK \/ o_action o = PStr ACTION_UNBLOCK ->
  py_eq_str (o_action o) ACTION_REBOOT = false /\
  (py_eq_str (o_action o) ACTION_BLOCK || py_eq_str (o_action o) ACTION_UNBLOCK) = true.
Proof. intros [-> | ->]; split; reflexivity. Qed.

Lemma block_loop_none {B E : Type} `{!Driver B E} (o : obj) (value : bool) (ap : E)
    (radios : list E) (s : st B E) :
  find (fun r => attr_is (drv_attr r "value" (st_br s)) (block_target value)) radios = None ->
  block_loop o value ap radios s = (inr false, s).
Proof.
  induction radios as [| r rs IH]; [reflexivity |].
  cbn [find]. intros Hf. cbn [block_loop].
  unfold mbind at 1, M_bind at 1, get_attribute, query. cbn beta iota.
  rewrite block_cond.
  destruct (attr_is (drv_attr r "value" (st_br s)) (block_target value)); [discriminate |].
  exact (IH Hf).
Qed.

(** C10: for the block and unblock actions, when the block page has no
    [skeyword] radio with the wanted value, [block_services] returns
    [False] and [run] goes on as if it had worked: after the block page
    has loaded, the run only looks up [apply] and the radios, quits the
    browser and (as a CGI script) prints its headers.  No click, no log
    entry at all (so no error), and [main] returns normally: exit status 0. *)
Theorem block_no_radio_exits_0 {B E : Type} `{!Driver B E} (a : args) (cfg : cfgfile) (o : obj)
    (s s0 s1 s2 s3 s4 : st B E) (ap : E) (rest : list E) :
  main_config a cfg s = (inr o, s0) ->
  get_browser o (snd (log DEBUG "Getting page..." s0)) = (inr tt, s1) ->
  get_start_page o (set_has_browser true s1) = (inr tt, s2) ->
  check_login o s2 = (inr true, s3) ->
  o_action o = PStr ACTION_BLOCK \/ o_action o = PStr ACTION_UNBLOCK ->
  get_block_page o s3 = (inr tt, s4) ->
  drv_find (ByName "apply") (st_br s4) = ap :: rest ->
  let value := py_eq_str (o_action o) ACTION_BLOCK in
  let radios := drv_find (ByName "skeyword") (st_br s4) in
  find (fun r => attr_is (drv_attr r "value" (st_br s4)) (block_target value)) radios = None ->
  let s5 := add_ev (EvFind (ByName "skeyword") radios) (add_ev (EvFind (ByName "apply") (ap :: rest)) s4) in
  block_services o value s4 = (inr false, s5) /\
  main a cfg s =
    cgi_headers (match st_environ s !! "GATEWAY_INTERFACE" with Some _ => true | None => false end)
      (add_ev EvQuit (set_br (drv_quit (st_br s5)) s5)) /\
  exit_status (fst (main a cfg s)) = 0 /\
  st_trace (add_ev EvQuit (set_br (drv_quit (st_br s5)) s5)) =
    (st_trace s4 ++ [EvFind (ByName "apply") (ap :: rest); EvFind (ByName "skeyword") radios; EvQuit])%list.
Proof.
  intros Hc Hb Hp Hl Hact Hbp Ha value radios Hnone s5.
  assert (Hbs : block_services o value s4 = (inr false, s5)).
  { rewrite (block_services_found o value ap rest s4 Ha). apply block_loop_none. exact Hnone. }
  destruct (py_eq_str_reboot_block o Hact) as [Hnr Hbl].
  assert (Hra : run_action o s3 = (inr tt, s5)).
  { unfold run_action. rewrite Hnr, Hbl.
    rewrite (bind_inr _ _ _ _ _ (eq_refl : (mret tt : M B E unit) s3 = (inr tt, s3))).
    rewrite (bind_inr _ _ _ _ _ Hbp). fold value. rewrite (bind_inr _ _ _ _ _ Hbs). reflexivity. }
  assert (Hr : run o s0 = (inr tt, add_ev EvQuit (set_br (drv_quit (st_br s5)) s5))).
  { unfold run. rewrite (bind_inr _ _ _ _ _ (log_result DEBUG "Getting page..." s0)).
    unfold try_Exception, run_body. rewrite (bind_inr _ _ _ _ _ Hb).
    rewrite (bind_inr _ _ _ _ _ (put_has_browser_run true s1)).
    rewrite (bind_inr _ _ _ _ _ Hp), (bind_inr _ _ _ _ _ Hl).
    rewrite (bind_inr _ _ _ _ _ (eq_refl : (mret tt : M B E unit) s3 = (inr tt, s3))).
    rewrite (bind_inr _ _ _ _ _ Hra). reflexivity. }
  assert (Hm : main a cfg s =
    cgi_headers (match st_environ s !! "GATEWAY_INTERFACE" with Some _ => true | None => false end)
      (add_ev EvQuit (set_br (drv_quit (st_br s5)) s5))).
  { unfold main. rewrite (bind_inr _ _ _ _ _ (getenv_run s)).
    rewrite (bind_inr _ _ _ _ _ Hc), (bind_inr _ _ _ _ _ Hr). reflexivity. }
  split; [exact Hbs |]. split; [exact Hm |]. split.
  - rewrite Hm. destruct (st_environ s !! "GATEWAY_INTERFACE"); reflexivity.
  - cbn. rewrite <- !app_assoc. reflexivity.
Qed.

Lemma block_no_radio_exits_0_witness :
  let a := cli (Some ACTION_BLOCK) in
  let cfg := CfgJson (PDict []) in
  let o := the_obj ACTION_BLOCK in
  let s := init router_no_radio ∅ in
  let s0 := snd (main_config a cfg s) in
  let s1 := snd (get_browser o (snd (log DEBUG "Getting page..." s0))) in
  let s2 := snd (get_start_page o (set_has_browser true s1)) in
  let s3 := snd (check_login o s2) in
  let s4 := snd (get_block_page o s3) in
  let value := py_eq_str (o_action o) ACTION_BLOCK in
  let radios := drv_find (ByName "skeyword") (st_br s4) in
  let s5 := add_ev (EvFind (ByName "skeyword") radios) (add_ev (EvFind (ByName "apply") [apply_btn]) s4) in
  main_config a cfg s = (inr o, s0) /\
  get_browser o (snd (log DEBUG "Getting page..." s0)) = (inr tt, s1) /\
  get_start_page o (set_has_browser true s1) = (inr tt, s2) /\
  check_login o s2 = (inr true, s3) /\
  (o_action o = PStr ACTION_BLOCK \/ o_action o = PStr ACTION_UNBLOCK) /\
  get_block_page o s3 = (inr tt, s4) /\
  drv_find (ByName "apply") (st_br s4) = [apply_btn] /\
  find (fun r => attr_is (drv_attr r "value" (st_br s4)) (block_target value)) radios = None /\
  (block_services o value s4 = (inr false, s5) /\
   main a cfg s =
     cgi_headers (match st_environ s !! "GATEWAY_INTERFACE" with Some _ => true | None => false end)
       (add_ev EvQuit (set_br (drv_quit (st_br s5)) s5)) /\
   exit_status (fst (main a cfg s)) = 0 /\
   st_trace (add_ev EvQuit (set_br (drv_quit (st_br s5)) s5)) =
     (st_trace s4 ++ [EvFind (ByName "apply") [apply_btn]; EvFind (ByName "skeyword") radios; EvQuit])%list).
Proof.
  intros a cfg o s s0 s1 s2 s3 s4 value radios s5.
  assert (H0 : main_config a cfg s = (inr o, s0)) by (vm_compute; reflexivity).
  assert (H1 : get_browser o (snd (log DEBUG "Getting page..." s0)) = (inr tt, s1))
    by (vm_compute; reflexivity).
  assert (H2 : get_start_page o (set_has_browser true s1) = (inr tt, s2)) by (vm_compute; reflexivity).
  assert (H3 : check_login o s2 = (inr true, s3)) by (vm_compute; reflexivity).
  assert (H4 : o_action o = PStr ACTION_BLOCK \/ o_action o = PStr ACTION_UNBLOCK) by (left; reflexivity).
  assert (H5 : get_block_page o s3 = (inr tt, s4)) by (vm_compute; reflexivity).
  assert (H6 : drv_find (ByName "apply") (st_br s4) = [apply_btn]) by (vm_compute; reflexivity).
  assert (H7 : find (fun r => attr_is (drv_attr r "value" (st_br s4)) (block_target value)) radios = None)
    by (vm_compute; reflexivity).
  exact (conj H0 (conj H1 (conj H2 (conj H3 (conj H4 (conj H5 (conj H6 (conj H7
    (block_no_radio_exits_0 a cfg o s s0 s1 s2 s3 s4 apply_btn [] H0 H1 H2 H3 H4 H5 H6 H7))))))))).
Defined.

(* ------------------------------------------------------------------ *)
(** ** Runs that end normally or with an [Exception] *)

Section ExnRuns.
Context {B E : Type} `{!Driver B E}.
Local Open Scope list_scope.
Variable P : event E -> Prop.

(** [exn_runs m]: every run of [m] that returns, or raises an exception
    caught by [except Exception], appends only events satisfying [P]. *)
Definition exn_runs {A} (m : M B E A) : Prop :=
  forall s r s', m s = (r, s') -> (forall e, r = inl e -> is_Exception e = true) ->
  exists t, st_trace s' = st_trace s ++ t /\ Forall P t.

Lemma exn_runs_of_emits {A} (m : M B E A) : emits P m -> exn_runs m.
Proof. intros He s r s' Hm _. destruct (He s) as [t Ht]. rewrite Hm in Ht. exists t. exact Ht. Qed.

Lemma exn_runs_bind {A C} (m : M B E A) (f : A -> M B E C) :
  exn_runs m -> (forall x, exn_runs (f x)) -> exn_runs (m ≫= f).
Proof.
  intros Hm Hf s r s' Hr Hexc. unfold mbind, M_bind in Hr.
  destruct (m s) as [[e | x] s1] eqn:Hs.
  - injection Hr as <- <-. apply (Hm s (inl e) s1 Hs). intros e' [= <-]. apply (Hexc e eq_refl).
  - eapply appended_trans.
    + apply (Hm s (inr x) s1 Hs). discriminate.
    + exact (Hf x s1 r s' Hr Hexc).
Qed.

Lemma exn_runs_if {A} (b : bool) (m1 m2 : M B E A) :
  exn_runs m1 -> exn_runs m2 -> exn_runs (if b then m1 else m2).
Proof. destruct b; auto. Qed.

Lemma exn_runs_try_Exception {A} (m : M B E A) h :
  exn_runs m -> (forall e, exn_runs (h e)) -> exn_runs (try_Exception m h).
Proof.
  intros Hm Hh s r s' Hr Hexc. unfold try_Exception in Hr.
  destruct (m s) as [[e | x] s1] eqn:Hs.
  - destruct (is_Exception e) eqn:He.
    + eapply appended_trans.
      * apply (Hm s (inl e) s1 Hs). intros e' [= <-]. exact He.
      * exact (Hh e s1 r s' Hr Hexc).
    + injection Hr as <- <-. specialize (Hexc e eq_refl). congruence.
  - injection Hr as <- <-. apply (Hm s (inr x) s1 Hs). discriminate.
Qed.

(** A computation that always ends in [SystemExit] has no run to speak of. *)
Lemma exn_runs_exit {A} (m : M B E A) :
  (forall s, exists x, fst (m s) = inl (SystemExit x)) -> exn_runs m.
Proof.
  intros Hx s r s' Hr Hexc. destruct (Hx s) as [x Hfx]. rewrite Hr in Hfx. simpl in Hfx.
  specialize (Hexc _ Hfx). discriminate.
Qed.

End ExnRuns.

Definition not_critical {E} (ev : event E) : Prop := is_critical ev = false.

Ltac no_crit :=
  intros; repeat match goal with l : level |- _ => destruct l end;
  unfold not_critical; cbn; auto; try congruence.

Ltac emits_finish :=
  first [ apply emits_command; no_crit | apply emits_emit; no_crit | apply emits_log; no_crit
        | match goal with |- emits _ (match ?l with _ => _ end) => destruct l; eauto with emits end ].

Section NoCritical.
Context {B E : Type} `{!Driver B E}.
Local Open Scope list_scope.


Lemma critical_exit {A} msg (m : M B E A) x :
  (forall s, fst (m s) = inl (SystemExit x)) ->
  forall s, exists y, fst ((log CRITICAL msg;; m) s) = inl (SystemExit y).
Proof.
  intros Hm s. exists x. rewrite (bind_inr _ _ _ _ _ (log_critical msg s)). apply Hm.
Qed.

Lemma emits_not_critical_get_page (o : obj) tmpl :
  emits not_critical (get o tmpl;; wait_for_page_load;; do_screenshot o).
Proof. apply emits_get_page; no_crit. Qed.

Lemma emits_not_critical_run_action (o : obj) : emits not_critical (run_action o).
Proof.
  unfold run_action. apply emits_bind; intros.
  - apply emits_if; [| eauto with emits].
    apply emits_bind; [apply emits_not_critical_get_page |]. intros.
    cbv beta. unfold reboot, switch_to_alert, click, time_sleep. emits_split; emits_finish.
  - apply emits_if; [| eauto with emits].
    apply emits_bind; [apply emits_not_critical_get_page |]. intros.
    apply emits_bind; [| eauto with emits].
    unfold block_services, find_element, find_elements.
    emits_split; first [apply emits_block_loop; no_crit | emits_finish].
Qed.

Lemma exn_runs_main_config (a : args) (cfg : cfgfile) :
  exn_runs not_critical (main_config (B:=B) (E:=E) a cfg).
Proof.
  unfold main_config.
  apply exn_runs_bind; [apply exn_runs_of_emits; unfold set_log_debug; emits_split |]. intros.
  repeat (apply exn_runs_bind; [apply exn_runs_of_emits; eauto with emits |]; intros).
  apply exn_runs_if; [| apply exn_runs_if].
  - apply exn_runs_exit; eapply critical_exit; intros; reflexivity.
  - apply exn_runs_exit; eapply critical_exit; intros; reflexivity.
  - apply exn_runs_of_emits. emits_split; emits_finish.
Qed.

Lemma exn_runs_run (o : obj) : exn_runs not_critical (run (B:=B) (E:=E) o).
Proof.
  unfold run. apply exn_runs_bind; [apply exn_runs_of_emits, emits_log; no_crit |]. intros.
  apply exn_runs_try_Exception.
  - unfold run_body.
    apply exn_runs_bind; [apply exn_runs_of_emits, emits_get_browser; no_crit |]. intros.
    apply exn_runs_bind; [apply exn_runs_of_emits; eauto with emits |]. intros.
    apply exn_runs_bind; [apply exn_runs_of_emits, emits_not_critical_get_page |]. intros.
    apply exn_runs_bind; [apply exn_runs_of_emits, emits_check_login; no_crit |]. intros ok.
    apply exn_runs_bind.
    + apply exn_runs_if; [apply exn_runs_of_emits; eauto with emits |].
      apply exn_runs_exit; eapply critical_exit; intros; reflexivity.
    + intros. apply exn_runs_of_emits. apply emits_bind; [apply emits_not_critical_run_action |].
      intros. unfold browser_quit. apply emits_command; no_crit.
  - intros e. apply exn_runs_of_emits. unfold run_handler, browser_quit. emits_split; emits_finish.
Qed.

Lemma exn_runs_main (a : args) (cfg : cfgfile) : exn_runs not_critical (main (B:=B) (E:=E) a cfg).
Proof.
  unfold main. apply exn_runs_bind; [apply exn_runs_of_emits; eauto with emits |]. intros env.
  apply exn_runs_bind; [apply exn_runs_main_config |]. intros o.
  apply exn_runs_bind; [apply exn_runs_run |]. intros.
  apply exn_runs_of_emits. unfold cgi_headers. emits_split; emits_finish.
Qed.

End NoCritical.

Section GetErrors.
Context {B E : Type} `{!Driver B E}.

(** The only exception [get] lets through is the one [error_screenshot]
    raises: a failed wait is caught inside the loop. *)
Lemma get_attempts_error url n (s s' : st B E) e :
  get_attempts url n s = (inl e, s') -> e = NameError "codecs".
Proof.
  revert s. induction n as [| n IH]; intros s Hr.
  - cbn [get_attempts] in Hr.
    rewrite bind_err with (e := NameError "codecs") in Hr by apply error_screenshot_raises.
    congruence.
  - cbn [get_attempts] in Hr. unfold mbind at 1, M_bind at 1, try_Exception in Hr.
    unfold webdriver_wait at 1, mbind at 1, M_bind at 1 in Hr.
    destruct (drv_wait 15 (CondUrlNot "about:blank") (st_br s)) as [[|] b'].
    + cbn in Hr. discriminate.
    + cbn -[get_attempts log] in Hr. rewrite (bind_inr _ _ _ _ _ (log_result _ _ _)) in Hr. cbn -[get_attempts] in Hr.
      eapply IH. exact Hr.
Qed.

Lemma get_error (o : obj) tmpl (s s' : st B E) e :
  get o tmpl s = (inl e, s') -> e = NameError "codecs".
Proof.
  unfold get. rewrite (bind_inr _ _ _ _ _ (log_result _ _ s)).
  rewrite (bind_inr _ _ _ _ _ (eq_refl : browser_get (page_url o tmpl) (snd (log INFO ("GET " ++ page_url o tmpl) s)) = _)).
  apply get_attempts_error.
Qed.

End GetErrors.

(** C5 (amended): when a page does not load within [get]'s retries, [get]
    raises an exception that [except Exception] catches (not [SystemExit]),
    logging nothing at CRITICAL level; [run] quits the browser, if it has
    one, and re-raises it; [main] does not catch it.  Whenever [main] ends
    with such an exception the process exits with status 1 and no CRITICAL
    entry has been logged. *)
Theorem page_load_failure_exits_1 {B E : Type} `{!Driver B E} :
  (forall (o : obj) tmpl (s s' : st B E) e,
     get o tmpl s = (inl e, s') ->
     is_Exception e = true /\
     exists t, st_trace s' = (st_trace s ++ t)%list /\ Forall not_critical t) /\
  (forall (o : obj) (s0 s1 : st B E) e,
     run_body o (snd (log DEBUG "Getting page..." s0)) = (inl e, s1) ->
     is_Exception e = true ->
     run o s0 = (inl e, if st_has_browser s1 then add_ev EvQuit (set_br (drv_quit (st_br s1)) s1) else s1)) /\
  (forall a cfg (o : obj) (s s0 s1 : st B E) e,
     main_config a cfg s = (inr o, s0) -> run o s0 = (inl e, s1) -> main a cfg s = (inl e, s1)) /\
  (forall a cfg (s s' : st B E) e,
     main a cfg s = (inl e, s') -> is_Exception e = true ->
     exit_status (inl e : exn + unit) = 1 /\
     exists t, st_trace s' = (st_trace s ++ t)%list /\ Forall not_critical t).
Proof.
  split; [| split; [| split]].
  - intros o tmpl s s' e Hg.
    pose proof (get_error o tmpl s s' e Hg) as ->. split; [reflexivity |].
    eapply emits_run; [| exact Hg]. apply emits_get; no_crit.
  - intros o s0 s1 e Hb He. unfold run.
    rewrite (bind_inr _ _ _ _ _ (log_result _ _ s0)). unfold try_Exception. rewrite Hb, He.
    unfold run_handler, mbind, M_bind, get_has_browser. cbn.
    destruct (st_has_browser s1); reflexivity.
  - intros a cfg o s s0 s1 e Hc Hr. unfold main.
    rewrite (bind_inr _ _ _ _ _ (getenv_run s)), (bind_inr _ _ _ _ _ Hc), (bind_inl _ _ _ _ _ Hr).
    reflexivity.
  - intros a cfg s s' e Hm He. split.
    + destruct e as [[] | | | | | | | | | |]; try reflexivity; discriminate.
    + apply (exn_runs_main a cfg s (inl e) s' Hm). intros e' [= <-]. exact He.
Qed.

Lemma page_load_failure_exits_1_witness :
  let a := cli (Some ACTION_REBOOT) in
  let cfg := CfgMissing in
  let s := init router_down ∅ in
  let s0 := snd (main_config a cfg s) in
  let o := the_obj ACTION_REBOOT in
  let sb := snd (log DEBUG "Getting page..." s0) in
  let sl := set_has_browser true (snd (get_browser o sb)) in
  let e := NameError "codecs" in
  (get o START_URL sl = (inl e, snd (get o START_URL sl)) /\
   is_Exception e = true /\
   exists t, st_trace (snd (get o START_URL sl)) = (st_trace sl ++ t)%list /\ Forall not_critical t) /\
  (run_body o sb = (inl e, snd (run_body o sb)) /\
   run o s0 = (inl e, let s1 := snd (run_body o sb) in
                      if st_has_browser s1 then add_ev EvQuit (set_br (drv_quit (st_br s1)) s1) else s1)) /\
  (main_config a cfg s = (inr o, s0) /\ run o s0 = (inl e, snd (run o s0)) /\
   main a cfg s = (inl e, snd (run o s0))) /\
  (main a cfg s = (inl e, snd (main a cfg s)) /\
   exit_status (inl e : exn + unit) = 1 /\
   exists t, st_trace (snd (main a cfg s)) = (st_trace s ++ t)%list /\ Forall not_critical t).
Proof.
  intros a cfg s s0 o sb sl e.
  destruct (page_load_failure_exits_1 (B:=mstate) (E:=melem)) as [T1 [T2 [T3 T4]]].
  assert (G : get o START_URL sl = (inl e, snd (get o START_URL sl))) by (vm_compute; reflexivity).
  assert (R : run_body o sb = (inl e, snd (run_body o sb))) by (vm_compute; reflexivity).
  assert (C : main_config a cfg s = (inr o, s0)) by (vm_compute; reflexivity).
  assert (Rn : run o s0 = (inl e, snd (run o s0))) by (vm_compute; reflexivity).
  assert (Mn : main a cfg s = (inl e, snd (main a cfg s))) by (vm_compute; reflexivity).
  split; [exact (conj G (T1 o START_URL sl _ e G)) |].
  split; [exact (conj R (T2 o s0 _ e R eq_refl)) |].
  split; [exact (conj C (conj Rn (T3 a cfg o s s0 _ e C Rn))) |].
  exact (conj Mn (T4 a cfg s _ e Mn eq_refl)).
Defined.

(* ------------------------------------------------------------------ *)
(** ** Computations that keep the browser flag and raise only [Exception]s *)

Section Tame.
Context {B E : Type} `{!Driver B E}.

(** [tame m]: [m] leaves [self.browser] set or unset as it found it, and
    whatever it raises is caught by [except Exception]. *)
Definition tame {A} (m : M B E A) : Prop :=
  forall s r s', m s = (r, s') ->
  st_has_browser s' = st_has_browser s /\ forall e, r = inl e -> is_Exception e = true.

Lemma tame_total {A} (m : M B E A) :
  (forall s, exists x, fst (m s) = inr x /\ st_has_browser (snd (m s)) = st_has_browser s) -> tame m.
Proof.
  intros H s r s' Hm. destruct (H s) as [x [Hx Hh]]. rewrite Hm in Hx, Hh. simpl in Hx, Hh.
  split; [exact Hh | intros e ->; discriminate].
Qed.

Lemma tame_mret {A} (x : A) : tame (mret x).
Proof. apply tame_total. intros s. exists x. auto. Qed.

Lemma tame_raise {A} e : is_Exception e = true -> tame (raise (A:=A) e).
Proof. intros He s r s' [= <- <-]. split; [reflexivity | intros e' [= <-]; exact He]. Qed.

Lemma tame_bind {A C} (m : M B E A) (f : A -> M B E C) :
  tame m -> (forall x, tame (f x)) -> tame (m ≫= f).
Proof.
  intros Hm Hf s r s' Hr. unfold mbind, M_bind in Hr.
  destruct (m s) as [[e | x] s1] eqn:Hs.
  - injection Hr as <- <-. destruct (Hm s (inl e) s1 Hs) as [Hh He].
    split; [exact Hh | intros e' [= <-]; apply He; reflexivity].
  - destruct (Hm s (inr x) s1 Hs) as [Hh _]. destruct (Hf x s1 r s' Hr) as [Hh' He'].
    split; [congruence | exact He'].
Qed.

Lemma tame_if {A} (b : bool) (m1 m2 : M B E A) : tame m1 -> tame m2 -> tame (if b then m1 else m2).
Proof. destruct b; auto. Qed.

Lemma tame_try_Exception {A} (m : M B E A) h :
  tame m -> (forall e, tame (h e)) -> tame (try_Exception m h).
Proof.
  intros Hm Hh s r s' Hr. unfold try_Exception in Hr.
  destruct (m s) as [[e | x] s1] eqn:Hs.
  - destruct (Hm s (inl e) s1 Hs) as [Hb He]. rewrite (He e eq_refl) in Hr.
    destruct (Hh e s1 r s' Hr) as [Hb' He']. split; [congruence | exact He'].
  - injection Hr as <- <-. exact (Hm s (inr x) s1 Hs).
Qed.

Lemma tame_try_all {A} (m : M B E A) h :
  (forall s r s', m s = (r, s') -> st_has_browser s' = st_has_browser s) -> (forall e, tame (h e)) ->
  tame (try_all m h).
Proof.
  intros Hm Hh s r s' Hr. unfold try_all in Hr.
  destruct (m s) as [[e | x] s1] eqn:Hs.
  - destruct (Hh e s1 r s' Hr) as [Hb' He']. split; [rewrite Hb'; exact (Hm s _ s1 Hs) | exact He'].
  - injection Hr as <- <-. split; [exact (Hm s _ s1 Hs) | intros e [=]].
Qed.

Lemma tame_keeps {A} (m : M B E A) s r s' : tame m -> m s = (r, s') -> st_has_browser s' = st_has_browser s.
Proof. intros H Hm. exact (proj1 (H s r s' Hm)). Qed.

Lemma tame_log lvl msg : tame (log lvl msg).
Proof. apply tame_total. intros s. exists tt. unfold log. destruct (Nat.leb _ _); auto. Qed.

Lemma tame_emit ev : tame (emit ev).
Proof. apply tame_total. intros s. exists tt. auto. Qed.

Lemma tame_query {A} (f : B -> A) : tame (query f).
Proof. apply tame_total. intros s. eexists. auto. Qed.

Lemma tame_command f ev : tame (command f ev).
Proof. apply tame_total. intros s. exists tt. auto. Qed.

Lemma tame_getcwd : tame getcwd.
Proof. apply tame_total. intros s. eexists. auto. Qed.

Lemma tame_get_shot_num : tame get_shot_num.
Proof. apply tame_total. intros s. eexists. auto. Qed.

Lemma tame_put_shot_num n : tame (put_shot_num n).
Proof. apply tame_total. intros s. eexists. auto. Qed.

Lemma tame_webdriver_wait t c : tame (webdriver_wait t c).
Proof.
  intros s r s' Hr. unfold webdriver_wait in Hr. destruct (drv_wait t c (st_br s)) as [[|] b'];
  injection Hr as <- <-; (split; [reflexivity | intros e [= <-]; reflexivity]).
Qed.

Lemma tame_find_elements loc : tame (find_elements loc).
Proof. apply tame_total. intros s. eexists. auto. Qed.

Lemma tame_find_element loc : tame (find_element loc).
Proof.
  unfold find_element. apply tame_bind; [apply tame_find_elements |].
  intros [| e es]; [apply tame_raise; reflexivity | apply tame_mret].
Qed.

End Tame.

Create HintDb tame.
#[export] Hint Resolve tame_mret tame_bind tame_if tame_try_Exception tame_log tame_emit tame_query
  tame_command tame_getcwd tame_get_shot_num tame_put_shot_num tame_webdriver_wait
  tame_find_elements tame_find_element : tame.
#[export] Hint Extern 1 (tame (raise _)) => apply tame_raise; reflexivity : tame.

Ltac tame_split :=
  repeat first [ progress intros | solve [eauto with tame] | apply tame_bind
               | apply tame_try_Exception | apply tame_if ].

Section TameMethods.
Context {B E : Type} `{!Driver B E}.
Variable o : obj.

Lemma tame_try_all_tame {A} (m : M B E A) h : tame m -> (forall e, tame (h e)) -> tame (try_all m h).
Proof. intros Hm Hh. apply tame_try_all; [intros s r s' H; exact (tame_keeps m s r s' Hm H) | exact Hh]. Qed.

Lemma tame_error_screenshot : tame (B:=B) (E:=E) error_screenshot.
Proof. unfold error_screenshot, screenshot_as_file. tame_split. Qed.
Hint Resolve tame_error_screenshot : tame.

Lemma tame_do_screenshot : tame (do_screenshot o).
Proof. unfold do_screenshot, screenshot_as_file. tame_split. Qed.
Hint Resolve tame_do_screenshot : tame.

Lemma tame_get_attempts url n : tame (B:=B) (E:=E) (get_attempts url n).
Proof.
  induction n as [| n IH]; cbn [get_attempts].
  - apply tame_bind; [apply tame_error_screenshot | intros; apply tame_raise; reflexivity].
  - unfold browser_get, time_sleep. tame_split.
Qed.

Lemma tame_get tmpl : tame (get o tmpl).
Proof.
  unfold get, browser_get. apply tame_bind; [apply tame_log | intros].
  apply tame_bind; [apply tame_command | intros]. apply tame_get_attempts.
Qed.

Lemma tame_page_source_loop fuel count : tame (B:=B) (E:=E) (page_source_loop fuel count).
Proof.
  revert count. induction fuel as [| fuel IH]; intros count; cbn [page_source_loop]; [apply tame_mret |].
  unfold time_sleep. tame_split.
Qed.

Lemma tame_wait_for_page_load : tame (B:=B) (E:=E) wait_for_page_load.
Proof.
  unfold wait_for_page_load, wait_for_ajax_load. apply tame_bind; [apply tame_webdriver_wait |].
  intros. apply tame_page_source_loop.
Qed.
Hint Resolve tame_wait_for_page_load : tame.

Lemma tame_get_page tmpl : tame (get o tmpl;; wait_for_page_load;; do_screenshot o).
Proof.
  apply tame_bind; [apply tame_get | intros]. apply tame_bind; [apply tame_wait_for_page_load | intros].
  apply tame_do_screenshot.
Qed.

Lemma tame_check_login : tame (check_login o).
Proof.
  unfold check_login, click. apply tame_bind; [apply tame_try_all_tame | intros; apply tame_try_all_tame].
  - tame_split; first [apply tame_wait_for_page_load | apply tame_do_screenshot].
  - tame_split.
  - tame_split.
  - tame_split.
Qed.

Lemma tame_block_loop value ap radios : tame (block_loop o value ap radios).
Proof.
  induction radios as [| r rs IH]; cbn [block_loop]; [apply tame_mret |].
  unfold get_attribute, click, time_sleep. tame_split;
    first [apply tame_do_screenshot | apply tame_wait_for_page_load].
Qed.

Lemma tame_run_action : tame (run_action o).
Proof.
  unfold run_action. apply tame_bind; intros; apply tame_if; try apply tame_mret.
  - apply tame_bind; [apply tame_get_page | intros].
    unfold reboot, switch_to_alert, click, time_sleep. tame_split.
  - apply tame_bind; [apply tame_get_page | intros].
    apply tame_bind; [| intros; apply tame_mret].
    unfold block_services. apply tame_bind; [apply tame_find_element | intros].
    apply tame_bind; [apply tame_find_elements | intros]. apply tame_block_loop.
Qed.

End TameMethods.

(* ------------------------------------------------------------------ *)
(** ** The order of the steps of a run *)

(** Acquiring the browser: logs, the [DISPLAY] export, the window size. *)
Definition setup_event {E} (ev : event E) : Prop :=
  match ev with
  | EvLog lvl _ => lvl <> CRITICAL
  | EvSetEnv _ _ | EvWindowSize _ _ => True
  | _ => False
  end.

(** Fetching the start page and waiting for it. *)
Definition start_event {E} (o : obj) (ev : event E) : Prop :=
  match ev with
  | EvLog lvl _ => lvl <> CRITICAL
  | EvGet u => u = page_url o START_URL
  | EvWait _ _ _ | EvSleep _ | EvScreenshot _ => True
  | _ => False
  end.

(** Checking for the multi-login screen (its click apart). *)
Definition login_event {E} (ev : event E) : Prop :=
  match ev with
  | EvLog lvl _ => lvl <> CRITICAL
  | EvFind loc _ => loc = ByXPath MULTI_LOGIN_XPATH \/ loc = ByName "yes"
  | EvWait _ _ _ | EvSleep _ | EvScreenshot _ => True
  | _ => False
  end.

(** The action: the home or block page, and its elements. *)
Definition action_event {E} (o : obj) (ev : event E) : Prop :=
  match ev with
  | EvLog lvl _ => lvl <> CRITICAL
  | EvGet u => u = page_url o HOME_URL \/ u = page_url o BLOCK_URL
  | EvFind _ _ | EvClick _ | EvWait _ _ _ | EvSleep _ | EvScreenshot _ | EvAcceptAlert => True
  | _ => False
  end.

Definition log_only {E} (ev : event E) : Prop :=
  match ev with EvLog lvl _ => lvl <> CRITICAL | _ => False end.

(** The events of [check_login] when it returns [ok]: the multi-login
    check, during which the only click is on the [yes] button just found,
    then the lookup of [logout], which found something exactly when [ok]. *)
(** The multi-login screen: its events, with at most one click on [yes]. *)
Definition login_shape {E} (tM : list (event E)) : Prop :=
  Forall login_event tM \/
  exists t1 e es' t2, tM = (t1 ++ EvFind (ByName "yes") (e :: es') :: EvClick e :: t2)%list /\
                      Forall login_event t1 /\ Forall login_event t2.

Definition login_check_shape {E} (t : list (event E)) (ok : bool) : Prop :=
  exists tM es tD,
    t = (tM ++ EvFind (ByName "logout") es :: tD)%list /\
    (ok = true <-> es <> []) /\ Forall log_only tD /\ login_shape tM.

Section Acquire.
Context {B E : Type} `{!Driver B E}.
Local Open Scope list_scope.

Definition setup_ok {A} (m : M B E A) : Prop :=
  forall s, (exists x, fst (m s) = inr x) /\ st_has_browser (snd (m s)) = st_has_browser s /\
            exists t, st_trace (snd (m s)) = st_trace s ++ t /\ Forall setup_event t.

(** The browser is acquired when the run succeeds, and only then. *)
Definition acquires {A} (m : M B E A) : Prop :=
  forall s r s', m s = (r, s') ->
  st_has_browser s' = st_has_browser s /\
  exists t, st_trace s' = st_trace s ++ t /\
    ((exists e, r = inl e) /\ Forall setup_event t \/
     (exists x, r = inr x) /\
     exists tA k tB, t = tA ++ EvAcquire k :: tB /\ Forall setup_event tA /\ Forall setup_event tB).

Lemma setup_ok_bind {A C} (m : M B E A) (f : A -> M B E C) :
  setup_ok m -> (forall x, setup_ok (f x)) -> setup_ok (m ≫= f).
Proof.
  intros Hm Hf s. destruct (Hm s) as [[x Hx] [Hh [t [Ht Ft]]]]. unfold mbind, M_bind.
  destruct (m s) as [r s1]. simpl in *. subst r.
  destruct (Hf x s1) as [Hx' [Hh' [t' [Ht' Ft']]]]. split; [exact Hx' |]. split; [congruence |].
  exists (t ++ t'). rewrite Ht', Ht, app_assoc. split; [reflexivity | apply Forall_app; auto].
Qed.

Lemma setup_ok_log lvl msg : lvl <> CRITICAL -> setup_ok (log lvl msg).
Proof.
  intros Hl s. unfold log. destruct (Nat.leb _ _); (split; [eauto | split; [reflexivity |]]).
  - exists [EvLog lvl msg]. split; [reflexivity | constructor; [exact Hl | constructor]].
  - exists []. rewrite app_nil_r. auto.
Qed.

Lemma setup_ok_none {A} (m : M B E A) x :
  (forall s, m s = (inr x, s)) -> setup_ok m.
Proof. intros H s. rewrite H. split; [eauto |]. split; [reflexivity |]. exists []. rewrite app_nil_r. auto. Qed.

Lemma setup_ok_putenv k v : setup_ok (putenv k v).
Proof.
  intros s. split; [eauto |]. split; [reflexivity |]. exists [EvSetEnv k v]. split; [reflexivity |].
  constructor; [exact I | constructor].
Qed.

Lemma setup_ok_window : setup_ok (command (drv_set_window_size 1024 768) (EvWindowSize 1024 768)).
Proof.
  intros s. split; [eauto |]. split; [reflexivity |]. exists [EvWindowSize 1024 768].
  split; [reflexivity | constructor; [exact I | constructor]].
Qed.

Lemma acquires_launch k : acquires (launch k).
Proof.
  intros s r s' Hr. unfold launch in Hr. destruct (drv_launch k (st_br s)) as [b |].
  - injection Hr as <- <-. split; [reflexivity |]. exists [EvAcquire k]. split; [reflexivity |].
    right. split; [eauto |]. exists [], k, []. auto.
  - injection Hr as <- <-. split; [reflexivity |]. exists []. rewrite app_nil_r.
    split; [reflexivity |]. left. eauto.
Qed.

Lemma acquires_raise {A} e : acquires (raise (A:=A) e).
Proof.
  intros s r s' [= <- <-]. split; [reflexivity |]. exists []. rewrite app_nil_r.
  split; [reflexivity |]. left. eauto.
Qed.

Lemma acquires_before {A C} (m : M B E A) (f : A -> M B E C) :
  setup_ok m -> (forall x, acquires (f x)) -> acquires (m ≫= f).
Proof.
  intros Hm Hf s r s' Hr. destruct (Hm s) as [[x Hx] [Hh [t [Ht Ft]]]]. unfold mbind, M_bind in Hr.
  destruct (m s) as [r1 s1]. simpl in *. subst r1.
  destruct (Hf x s1 r s' Hr) as [Hh' [t' [Ht' Ht'']]]. split; [congruence |].
  exists (t ++ t'). rewrite Ht', Ht, app_assoc. split; [reflexivity |].
  destruct Ht'' as [[He Fe] | [Hx' [tA [k [tB [-> [FA FB]]]]]]].
  - left. split; [exact He | apply Forall_app; auto].
  - right. split; [exact Hx' |]. exists (t ++ tA), k, tB. rewrite app_assoc. split; [reflexivity |].
    split; [apply Forall_app; auto | exact FB].
Qed.

Lemma acquires_after {A C} (m : M B E A) (f : A -> M B E C) :
  acquires m -> (forall x, setup_ok (f x)) -> acquires (m ≫= f).
Proof.
  intros Hm Hf s r s' Hr. unfold mbind, M_bind in Hr.
  destruct (m s) as [[e | x] s1] eqn:Hs.
  - injection Hr as <- <-. destruct (Hm s _ s1 Hs) as [Hh [t [Ht Hc]]]. split; [exact Hh |].
    exists t. split; [exact Ht |]. left. split; [eauto |].
    destruct Hc as [[_ F] | [[x' Hx'] _]]; [exact F | discriminate].
  - destruct (Hm s _ s1 Hs) as [Hh [t [Ht Hc]]].
    destruct (Hf x s1) as [[y Hy] [Hh' [t' [Ht' Ft']]]]. rewrite Hr in Hy, Hh', Ht'. simpl in *.
    split; [congruence |]. exists (t ++ t'). rewrite Ht', Ht, app_assoc. split; [reflexivity |].
    right. split; [eauto |].
    destruct Hc as [[[e' He'] _] | [_ [tA [k [tB [-> [FA FB]]]]]]]; [discriminate |].
    exists tA, k, (tB ++ t'). rewrite <- app_assoc. split; [reflexivity |]. split; [exact FA |].
    apply Forall_app; auto.
Qed.

Lemma setup_ok_getenv : setup_ok getenv.
Proof. intros s. split; [eauto |]. split; [reflexivity |]. exists []. rewrite app_nil_r. auto. Qed.

Lemma acquires_get_browser (o : obj) : acquires (get_browser o).
Proof.
  unfold get_browser.
  apply acquires_after;
    [| intros; apply setup_ok_bind; [apply setup_ok_window | intros; apply setup_ok_log; discriminate]].
  destruct (String.eqb _ "firefox");
    [| destruct (String.eqb _ "chrome");
       [| destruct (String.eqb _ "chrome-headless"); [| destruct (String.eqb _ "phantomjs")]]];
    try (apply acquires_before; [apply setup_ok_log; discriminate | intros; apply acquires_launch]);
    try apply acquires_raise.
  apply acquires_before; [apply setup_ok_log; discriminate | intros].
  apply acquires_before; [apply setup_ok_getenv | intros env].
  apply acquires_before; [| intros; apply acquires_launch].
  destruct (env !! "DISPLAY").
  - apply (setup_ok_none _ tt). reflexivity.
  - apply setup_ok_bind; [apply setup_ok_log; discriminate | intros; apply setup_ok_putenv].
Qed.

End Acquire.

Section StartPage.
Context {B E : Type} `{!Driver B E}.
Local Open Scope list_scope.

Definition any_event (ev : event E) : Prop := True.

Lemma new_events_in (ev : event E) (s1 s2 s3 : st B E) :
  (exists t, st_trace s2 = st_trace s1 ++ t /\ In ev t) ->
  (exists t, st_trace s3 = st_trace s2 ++ t /\ Forall any_event t) ->
  exists t, st_trace s3 = st_trace s1 ++ t /\ In ev t.
Proof.
  intros [t1 [H1 I1]] [t2 [H2 _]]. exists (t1 ++ t2). rewrite H2, H1, app_assoc.
  split; [reflexivity | apply in_or_app; auto].
Qed.

Lemma same_new_events (s s' : st B E) t t' :
  st_trace s' = st_trace s ++ t -> st_trace s' = st_trace s ++ t' -> t = t'.
Proof. intros H H'. rewrite H in H'. eapply app_inv_head. exact H'. Qed.

Ltac any_ev := intros; exact I.

Lemma get_fetches (o : obj) tmpl (s s' : st B E) r :
  get o tmpl s = (r, s') -> exists t, st_trace s' = st_trace s ++ t /\ In (EvGet (page_url o tmpl)) t.
Proof.
  intros Hg. unfold get in Hg. rewrite (bind_inr _ _ _ _ _ (log_result _ _ s)) in Hg.
  set (s1 := snd (log INFO ("GET " ++ page_url o tmpl) s)) in Hg.
  rewrite (bind_inr _ _ _ _ _ (eq_refl : browser_get (page_url o tmpl) s1 = _)) in Hg.
  apply new_events_in with (s2 := add_ev (EvGet (page_url o tmpl)) (set_br (drv_get (page_url o tmpl) (st_br s1)) s1)).
  - destruct (emits_log any_event INFO ("GET " ++ page_url o tmpl) I s) as [t [Ht _]].
    exists (t ++ [EvGet (page_url o tmpl)]). split.
    + transitivity (st_trace s1 ++ [EvGet (page_url o tmpl)]); [reflexivity |].
      unfold s1. rewrite Ht, app_assoc. reflexivity.
    + apply in_or_app. right. left. reflexivity.
  - eapply emits_run; [| exact Hg]. apply emits_get_attempts; any_ev.
Qed.

Lemma wait_for_page_load_waited (s s' : st B E) :
  wait_for_page_load s = (inr tt, s') ->
  exists t, st_trace s' = st_trace s ++ t /\ In (EvWait 20 CondReady true) t.
Proof.
  intros Hw. unfold wait_for_page_load, wait_for_ajax_load, mbind at 1, M_bind at 1 in Hw.
  unfold webdriver_wait at 1 in Hw.
  destruct (drv_wait 20 CondReady (st_br s)) as [[|] b'] eqn:Hd; [| discriminate].
  apply new_events_in with (s2 := add_ev (EvWait 20 CondReady true) (set_br b' s)).
  - exists [EvWait 20 CondReady true]. split; [reflexivity | left; reflexivity].
  - eapply emits_run; [| exact Hw]. apply emits_page_source_loop; any_ev.
Qed.

(** Fetching the start page: only the start page is requested, and the
    page was waited for when the call returns. *)
Lemma start_page_shape (o : obj) (s s' : st B E) r :
  get_start_page o s = (r, s') ->
  st_has_browser s' = st_has_browser s /\ (forall e, r = inl e -> is_Exception e = true) /\
  exists t, st_trace s' = st_trace s ++ t /\ Forall (start_event o) t /\
    In (EvGet (page_url o START_URL)) t /\ (r = inr tt -> In (EvWait 20 CondReady true) t).
Proof.
  intros Hp. destruct (tame_get_page o START_URL s r s' Hp) as [Hh He].
  split; [exact Hh |]. split; [exact He |].
  assert (Hem : emits (start_event o) (get_start_page o)).
  { unfold get_start_page. apply emits_get_page; no_crit. }
  destruct (emits_run _ _ s r s' Hem Hp) as [t [Ht Ft]].
  exists t. split; [exact Ht |]. split; [exact Ft |].
  unfold get_start_page, mbind at 1, M_bind at 1 in Hp.
  destruct (get o START_URL s) as [[eg | []] sg] eqn:Hg.
  - injection Hp as <- <-. destruct (get_fetches o START_URL s sg _ Hg) as [t' [Ht' I']].
    rewrite (same_new_events _ _ _ _ Ht Ht'). split; [exact I' | discriminate].
  - destruct (get_fetches o START_URL s sg _ Hg) as [tg [Htg Ig]].
    assert (Hrest : exists t2, st_trace s' = st_trace sg ++ t2 /\ (r = inr tt -> In (EvWait 20 CondReady true) t2)).
    { cbv beta in Hp. unfold mbind at 1, M_bind at 1 in Hp.
      destruct (wait_for_page_load sg) as [[ew | []] sw] eqn:Hw.
      - injection Hp as <- <-.
        assert (Hwe : emits any_event (B:=B) wait_for_page_load) by (apply emits_wait_for_page_load; any_ev).
        destruct (emits_run any_event _ sg _ sw Hwe Hw) as [t2 [Ht2 _]].
        exists t2. split; [exact Ht2 | discriminate].
      - destruct (wait_for_page_load_waited sg sw Hw) as [tw [Htw Iw]].
        assert (Hgrow : exists t'', st_trace s' = st_trace sw ++ t'' /\ Forall any_event t'').
        { eapply emits_run; [| exact Hp]. apply emits_do_screenshot; any_ev. }
        destruct (new_events_in _ _ _ _ (ex_intro _ tw (conj Htw Iw)) Hgrow) as [t2 [Ht2 I2]].
        exists t2. split; [exact Ht2 | intros _; exact I2]. }
    destruct Hrest as [t2 [Ht2 I2]].
    assert (Heq : t = tg ++ t2).
    { apply (same_new_events s s'); [exact Ht | rewrite Ht2, Htg, app_assoc; reflexivity]. }
    subst t. split; [apply in_or_app; left; exact Ig |].
    intros Hr. apply in_or_app. right. exact (I2 Hr).
Qed.

End StartPage.

Section LoginCheck.
Context {B E : Type} `{!Driver B E}.
Local Open Scope list_scope.
Variable o : obj.

Lemma find_element_run loc (s : st B E) :
  find_element loc s =
    (match drv_find loc (st_br s) with [] => inl NoSuchElementException | e :: _ => inr e end,
     add_ev (EvFind loc (drv_find loc (st_br s))) s).
Proof.
  unfold find_element, find_elements, mbind, M_bind, query, emit, mret, M_ret, raise. cbn.
  destruct (drv_find loc (st_br s)); reflexivity.
Qed.

Lemma log_events (P : event E -> Prop) lvl msg (s : st B E) :
  P (EvLog lvl msg) ->
  exists t, st_trace (snd (log lvl msg s)) = st_trace s ++ t /\ Forall P t.
Proof. intros HP. apply (emits_log P lvl msg HP s). Qed.

Lemma login_event_log lvl msg : lvl <> CRITICAL -> login_event (E:=E) (EvLog lvl msg).
Proof. intros H. exact H. Qed.

Lemma login_shape_app (tM t : list (event E)) : login_shape tM -> Forall login_event t -> login_shape (tM ++ t).
Proof.
  intros [F | (t1 & e & es' & t2 & -> & F1 & F2)] Ft.
  - left. apply Forall_app; auto.
  - right. exists t1, e, es', (t2 ++ t). rewrite <- app_assoc. split; [reflexivity |].
    split; [exact F1 | apply Forall_app; auto].
Qed.

Lemma emits_login_tail : emits login_event (wait_for_page_load (B:=B);; do_screenshot o).
Proof.
  apply emits_bind; [apply emits_wait_for_page_load | intros; apply emits_do_screenshot];
    first [intros lvl msg Hl; exact Hl | intros; exact I].
Qed.

Lemma find_element_nil loc (s : st B E) :
  drv_find loc (st_br s) = [] ->
  find_element loc s = (inl NoSuchElementException, add_ev (EvFind loc []) s).
Proof. intros H. rewrite find_element_run, H. reflexivity. Qed.

Lemma find_element_cons loc (s : st B E) e es :
  drv_find loc (st_br s) = e :: es ->
  find_element loc s = (inr e, add_ev (EvFind loc (e :: es)) s).
Proof. intros H. rewrite find_element_run, H. reflexivity. Qed.

Lemma multi_body_shape (s s' : st B E) r :
  (_ ← find_element (ByXPath MULTI_LOGIN_XPATH);
   log INFO "Multi login warning screen detected";;
   yes ← find_element (ByName "yes");
   click yes;;
   wait_for_page_load;;
   do_screenshot o) s = (r, s') ->
  exists tM, st_trace s' = st_trace s ++ tM /\ login_shape tM.
Proof.
  intros Hb.
  destruct (drv_find (ByXPath MULTI_LOGIN_XPATH) (st_br s)) as [| x xs] eqn:HX.
  - rewrite (bind_inl _ _ _ _ _ (find_element_nil _ s HX)) in Hb.
    injection Hb as <- <-. exists [EvFind (ByXPath MULTI_LOGIN_XPATH) []]. split; [reflexivity |].
    left. constructor; [left; reflexivity | constructor].
  - rewrite (bind_inr _ _ _ _ _ (find_element_cons _ s x xs HX)) in Hb.
    set (s0 := add_ev (EvFind (ByXPath MULTI_LOGIN_XPATH) (x :: xs)) s) in Hb.
    rewrite (bind_inr _ _ _ _ _ (log_result _ _ s0)) in Hb.
    set (s1 := snd (log INFO "Multi login warning screen detected" s0)) in Hb.
    destruct (log_events login_event INFO "Multi login warning screen detected" s0 ltac:(discriminate))
      as [tl [Hl Fl]]. fold s1 in Hl.
    assert (F0 : Forall login_event (EvFind (ByXPath MULTI_LOGIN_XPATH) (x :: xs) :: tl)).
    { constructor; [left; reflexivity | exact Fl]. }
    destruct (drv_find (ByName "yes") (st_br s1)) as [| e es] eqn:HY.
    + rewrite (bind_inl _ _ _ _ _ (find_element_nil _ s1 HY)) in Hb.
      injection Hb as <- <-.
      exists ((EvFind (ByXPath MULTI_LOGIN_XPATH) (x :: xs) :: tl) ++ [EvFind (ByName "yes") []]).
      split.
      * cbn. rewrite Hl. cbn. rewrite <- !app_assoc. reflexivity.
      * left. apply Forall_app. split; [exact F0 | constructor; [right; reflexivity | constructor]].
    + rewrite (bind_inr _ _ _ _ _ (find_element_cons _ s1 e es HY)) in Hb.
      set (s2 := add_ev (EvFind (ByName "yes") (e :: es)) s1) in Hb.
      rewrite (bind_inr _ _ _ _ _ (eq_refl : click e s2 = (inr tt, add_ev (EvClick e) (set_br (drv_click e (st_br s2)) s2)))) in Hb.
      destruct (emits_run _ _ _ _ _ emits_login_tail Hb) as [t2 [Ht2 F2]].
      exists ((EvFind (ByXPath MULTI_LOGIN_XPATH) (x :: xs) :: tl) ++ EvFind (ByName "yes") (e :: es) :: EvClick e :: t2).
      split.
      * rewrite Ht2. cbn. rewrite Hl. cbn. rewrite <- !app_assoc. reflexivity.
      * right. exists (EvFind (ByXPath MULTI_LOGIN_XPATH) (x :: xs) :: tl), e, es, t2. auto.
Qed.
Lemma multi_login_shape (s s' : st B E) r :
  try_all
    (_ ← find_element (ByXPath MULTI_LOGIN_XPATH);
     log INFO "Multi login warning screen detected";;
     yes ← find_element (ByName "yes");
     click yes;;
     wait_for_page_load;;
     do_screenshot o)
    (fun _ => log DEBUG "No Multi login warning screen detected") s = (r, s') ->
  r = inr tt /\ exists tM, st_trace s' = st_trace s ++ tM /\ login_shape tM.
Proof.
  unfold try_all at 1. intros Hm.
  match type of Hm with (match ?b with _ => _ end) = _ => destruct b as [[e | []] s1] eqn:Hb end.
  - rewrite log_result in Hm. injection Hm as <- <-. split; [reflexivity |].
    destruct (multi_body_shape _ _ _ Hb) as [tM [HtM SM]].
    destruct (log_events login_event DEBUG "No Multi login warning screen detected" s1 ltac:(discriminate))
      as [tl [Hl Fl]].
    exists (tM ++ tl). split; [rewrite Hl, HtM, app_assoc; reflexivity | apply login_shape_app; auto].
  - injection Hm as <- <-. split; [reflexivity |]. exact (multi_body_shape _ _ _ Hb).
Qed.

Lemma check_login_shape (s s' : st B E) r :
  check_login o s = (r, s') ->
  st_has_browser s' = st_has_browser s /\
  exists ok, r = inr ok /\ exists t, st_trace s' = st_trace s ++ t /\ login_check_shape t ok.
Proof.
  intros Hc. split; [exact (proj1 (tame_check_login o s r s' Hc)) |].
  unfold check_login in Hc.
  match type of Hc with (?m ≫= _) s = _ => destruct (m s) as [r1 s1] eqn:H1 end.
  destruct (multi_login_shape _ _ _ H1) as [-> [tM [HtM SM]]].
  rewrite (bind_inr _ _ _ _ _ H1) in Hc. unfold try_all in Hc.
  destruct (drv_find (ByName "logout") (st_br s1)) as [| e es] eqn:HL.
  - rewrite (bind_inl _ _ _ _ _ (find_element_nil _ s1 HL)) in Hc.
    set (s2 := add_ev (EvFind (ByName "logout") []) s1) in Hc.
    rewrite (bind_inr _ _ _ _ _ (log_result _ _ s2)) in Hc. injection Hc as <- <-.
    exists false. split; [reflexivity |].
    destruct (log_events log_only DEBUG "Logout button not found" s2 ltac:(discriminate)) as [tl [Hl Fl]].
    exists (tM ++ EvFind (ByName "logout") [] :: tl). split.
    + cbn. rewrite Hl. cbn. rewrite HtM, <- !app_assoc. reflexivity.
    + exists tM, [], tl. split; [reflexivity |]. split; [split; [discriminate | intros []; reflexivity] |].
      split; [exact Fl | exact SM].
  - rewrite (bind_inr _ _ _ _ _ (find_element_cons _ s1 e es HL)) in Hc. injection Hc as <- <-.
    exists true. split; [reflexivity |].
    exists (tM ++ [EvFind (ByName "logout") (e :: es)]). split.
    + cbn. rewrite HtM, <- !app_assoc. reflexivity.
    + exists tM, (e :: es), []. split; [reflexivity |]. split; [split; [discriminate | reflexivity] |].
      split; [constructor | exact SM].
Qed.
Lemma emits_action_run_action : emits (action_event o) (run_action (B:=B) o).
Proof.
  unfold run_action. apply emits_bind; intros.
  - apply emits_if; [| eauto with emits].
    apply emits_bind; [apply emits_get_page; no_crit |]. intros.
    cbv beta. unfold reboot, switch_to_alert, click, time_sleep. emits_split; emits_finish.
  - apply emits_if; [| eauto with emits].
    apply emits_bind; [apply emits_get_page; no_crit |]. intros.
    apply emits_bind; [| eauto with emits].
    unfold block_services, find_element, find_elements.
    emits_split; first [apply emits_block_loop; no_crit | emits_finish].
Qed.

Lemma action_run (s s' : st B E) r :
  run_action o s = (r, s') ->
  st_has_browser s' = st_has_browser s /\ (forall e, r = inl e -> is_Exception e = true) /\
  exists t, st_trace s' = st_trace s ++ t /\ Forall (action_event o) t.
Proof.
  intros Hr. destruct (tame_run_action o s r s' Hr) as [Hh He].
  split; [exact Hh |]. split; [exact He |].
  exact (emits_run _ _ _ _ _ emits_action_run_action Hr).
Qed.

Lemma trace_add_ev ev (x : st B E) : st_trace (add_ev ev x) = st_trace x ++ [ev].
Proof. reflexivity. Qed.

Lemma run_handler_quit e (x : st B E) :
  st_has_browser x = true -> run_handler e x = (inl e, add_ev EvQuit (set_br (drv_quit (st_br x)) x)).
Proof. intros H. unfold run_handler, get_has_browser, mbind, M_bind. rewrite H. reflexivity. Qed.

Lemma run_handler_none e (x : st B E) : st_has_browser x = false -> run_handler e x = (inl e, x).
Proof. intros H. unfold run_handler, get_has_browser, mbind, M_bind. rewrite H. reflexivity. Qed.

End LoginCheck.



(* ------------------------------------------------------------------ *)
(** ** Further properties of the methods *)

Section BrowserMethods.
Context {B E : Type} `{!Driver B E}.
Local Open Scope list_scope.

(** [get_browser] changes [os.environ] only for Firefox, and only to
    export [DISPLAY=:0] when [DISPLAY] is unset; a set [DISPLAY] is kept. *)
Lemma get_browser_environ (o : obj) (s s' : st B E) r :
  get_browser o s = (r, s') ->
  st_environ s' =
    if String.eqb (o_browser_name o) "firefox" then
      match st_environ s !! "DISPLAY" with
      | Some _ => st_environ s
      | None => <["DISPLAY" := ":0"]> (st_environ s)
      end
    else st_environ s.
Proof.
  intros H. unfold get_browser, mbind, M_bind, log, launch, command, getenv, putenv, raise, mret, M_ret in H.
  repeat (case_match; simplify_eq/=); try reflexivity.
Qed.

(** The browser kinds [get_browser] knows. *)
Definition browser_names : list string := ["firefox"; "chrome"; "chrome-headless"; "phantomjs"].

(** An unknown browser name: [get_browser] raises [SystemExit] with its
    message before launching anything or writing any event, and [run] lets
    it through (it is no [Exception]): no quit, the process exits. *)
Lemma get_browser_unknown_name (o : obj) (s : st B E) :
  ~ In (o_browser_name o) browser_names ->
  let err := SystemExit (ExitMsg ("ERROR: browser type must be one of 'firefox', 'chrome', 'phantomjs', or 'chrome-headless' not '" ++ o_browser_name o ++ "'")) in
  get_browser o s = (inl err, s) /\
  run o s = (inl err, snd (log DEBUG "Getting page..." s)).
Proof.
  intros Hn err.
  assert (Hg : forall x : st B E, get_browser o x = (inl err, x)).
  { intros x. unfold get_browser.
    destruct (String.eqb_spec (o_browser_name o) "firefox") as [Hf | _];
      [exfalso; apply Hn; rewrite Hf; simpl; tauto |].
    destruct (String.eqb_spec (o_browser_name o) "chrome") as [Hf | _];
      [exfalso; apply Hn; rewrite Hf; simpl; tauto |].
    destruct (String.eqb_spec (o_browser_name o) "chrome-headless") as [Hf | _];
      [exfalso; apply Hn; rewrite Hf; simpl; tauto |].
    destruct (String.eqb_spec (o_browser_name o) "phantomjs") as [Hf | _];
      [exfalso; apply Hn; rewrite Hf; simpl; tauto |].
    reflexivity. }
  split; [exact (Hg s) |].
  unfold run. rewrite (bind_inr _ _ _ _ _ (log_result _ _ s)).
  unfold try_Exception, run_body. rewrite (bind_inl _ _ _ _ _ (Hg _)). reflexivity.
Qed.

Ltac suffix_of s0 x :=
  match x with
  | st_trace s0 => constr:(@nil (event E))
  | ?a ++ ?l => let r := suffix_of s0 a in constr:(r ++ l)
  end.
Ltac before_acq l :=
  match l with
  | EvAcquire _ :: _ => constr:(@nil (event E))
  | ?x :: ?r => let t := before_acq r in constr:(x :: t)
  end.
Ltac after_ws l :=
  match l with
  | EvWindowSize _ _ :: ?r => r
  | _ :: ?r => after_ws r
  end.
Ltac events_ok := repeat (constructor || (cbn; discriminate) || (cbn; exact I)).

(** When [get_browser] returns, it launched the browser kind named by
    [browser_name] and resized the window to 1024x768 right after; only
    setup events come before, and only log entries after. *)
Lemma get_browser_launch_then_resize (o : obj) (s s' : st B E) :
  get_browser o s = (inr tt, s') ->
  (exists b, drv_launch (o_browser_name o) (st_br s) = Some b) /\
  exists t1 t2,
    st_trace s' = st_trace s ++ t1 ++ EvAcquire (o_browser_name o) :: EvWindowSize 1024 768 :: t2 /\
    Forall setup_event t1 /\ Forall log_only t2.
Proof.
  intros H. unfold get_browser, mbind, M_bind, log, launch, command, getenv, putenv, raise, mret, M_ret in H.
  repeat (case_match; simplify_eq/=);
  match goal with H : String.eqb (o_browser_name _) _ = true |- _ => apply String.eqb_eq in H; rewrite H end;
  (split; [eexists; eassumption |]);
  match goal with |- exists t1 t2, ?lhs = st_trace ?s0 ++ t1 ++ _ /\ _ =>
    let l := suffix_of s0 lhs in
    let l' := eval cbn [app] in l in
    let t1 := before_acq l' in
    let t2 := after_ws l' in
    exists t1, t2; split; [rewrite <- !app_assoc; reflexivity | split; events_ok]
  end.
Qed.

(** [error_screenshot] saves [webdriver_fail.png] in the working
    directory, logs its path and the page title at ERROR, and then always
    raises [NameError] ([codecs] is not imported): the page source is never
    saved nor its path logged. *)
Lemma error_screenshot_effect (s : st B E) :
  st_log_level s <> CRITICAL ->
  let f := path_join (st_cwd s) "webdriver_fail.png" in
  error_screenshot s =
    (inl (NameError "codecs"),
     add_ev (EvLog ERROR ("Page title: " ++ drv_title (st_br s)))
       (add_ev (EvLog ERROR ("Screenshot saved to: " ++ f)) (add_ev (EvScreenshot f) s))).
Proof.
  intros Hl f. unfold error_screenshot, mbind, M_bind, getcwd, screenshot_as_file, emit, log, query, raise.
  destruct s as [br tr env cwd lvl hb n]. cbn in *. destruct lvl; [reflexivity.. | congruence].
Qed.

(** [wait_for_page_load]: a ready-state wait that times out raises
    [TimeoutException] without checking the page source; a ready page
    whose source has 30 bytes or more returns at once, without sleeping. *)
Lemma wait_for_page_load_fast (s : st B E) b' :
  (drv_wait 20 CondReady (st_br s) = (false, b') ->
   wait_for_page_load s = (inl TimeoutException, add_ev (EvWait 20 CondReady false) (set_br b' s))) /\
  (drv_wait 20 CondReady (st_br s) = (true, b') -> 30 <= drv_page_source_len b' ->
   wait_for_page_load s = (inr tt, add_ev (EvWait 20 CondReady true) (set_br b' s))).
Proof.
  unfold wait_for_page_load, wait_for_ajax_load, webdriver_wait, mbind, M_bind.
  split; intros Hw; rewrite Hw; [reflexivity |].
  intros Hlen. cbn [page_source_loop]. unfold query, mbind, M_bind. cbn [st_br set_br add_ev fst snd].
  rewrite (proj2 (Nat.ltb_ge _ _) Hlen). reflexivity.
Qed.

(** [reboot] without a [reboot] element raises [NoSuchElementException]
    and clicks nothing; when no alert shows up after the click and the
    one-second sleep, it raises [NoAlertPresentException] and accepts
    nothing. *)
Lemma reboot_failures (s : st B E) :
  (drv_find (ById "reboot") (st_br s) = [] ->
   reboot s = (inl NoSuchElementException, add_ev (EvFind (ById "reboot") []) s)) /\
  (forall e es, drv_find (ById "reboot") (st_br s) = e :: es ->
   drv_alert (drv_sleep 1 (drv_click e (st_br s))) = false ->
   let s1 := add_ev (EvFind (ById "reboot") (e :: es)) s in
   let s2 := add_ev (EvClick e) (set_br (drv_click e (st_br s1)) s1) in
   reboot s = (inl NoAlertPresentException, add_ev (EvSleep 1) (set_br (drv_sleep 1 (st_br s2)) s2))).
Proof.
  split.
  - intros Hf. unfold reboot. rewrite (bind_inl _ _ _ _ _ (find_element_nil _ s Hf)). reflexivity.
  - intros e es Hf Ha s1 s2. unfold reboot. rewrite (bind_inr _ _ _ _ _ (find_element_cons _ s e es Hf)).
    unfold click, time_sleep, command, switch_to_alert, query, mbind, M_bind. cbn. rewrite Ha. reflexivity.
Qed.

(** [block_services] without an [apply] element raises
    [NoSuchElementException] before it looks up the radios: nothing is
    clicked. *)
Lemma block_services_no_apply (o : obj) (value : bool) (s : st B E) :
  drv_find (ByName "apply") (st_br s) = [] ->
  block_services o value s = (inl NoSuchElementException, add_ev (EvFind (ByName "apply") []) s).
Proof. intros Hf. unfold block_services. rewrite (bind_inl _ _ _ _ _ (find_element_nil _ s Hf)). reflexivity. Qed.

Section ShortPage.
Variable Q : B -> Prop.
Hypothesis HQlen : forall b, Q b -> drv_page_source_len b < 30.
Hypothesis HQs : forall b, Q b -> Q (drv_sleep 1 b).

Lemma page_source_loop_short fuel count (s : st B E) :
  Q (st_br s) -> count <= 21 -> fuel = 22 - count ->
  fst (page_source_loop fuel count s) = inl (NameError "codecs") /\
  exists t, st_trace (snd (page_source_loop fuel count s)) = st_trace s ++ t /\
    sleeps t = repeat 1 (21 - count).
Proof.
  revert count s. induction fuel as [| fuel IH]; intros count s Hq Hc Hf; [lia |].
  assert (Hu : page_source_loop (S fuel) count s =
    (if Nat.ltb (drv_page_source_len (st_br s)) 30 then
       if Nat.ltb 20 count then
         error_screenshot;;
         raise (RuntimeError "Waited 20s for page source to be more than 30 bytes, but still too small...")
       else
         log DEBUG ("Page source is only " ++ pretty (drv_page_source_len (st_br s)) ++ " bytes; sleeping");;
         time_sleep 1;;
         page_source_loop fuel (S count)
     else mret tt) s).
  { cbn [page_source_loop]. unfold query, mbind, M_bind. cbn [fst snd]. destruct (Nat.ltb _ 30); [destruct (Nat.ltb 20 count) |]; reflexivity. }
  rewrite Hu. clear Hu.
  rewrite (proj2 (Nat.ltb_lt _ _) (HQlen _ Hq)).
  destruct (Nat.ltb_spec 20 count) as [Hgt | Hle].
  - assert (count = 21) as -> by lia.
    rewrite bind_err with (e := NameError "codecs") by apply error_screenshot_raises.
    split; [reflexivity |].
    destruct (emits_error_screenshot (E:=E) quiet) with (s := s) as [t [Ht Ft]].
    + intros lvl msg _. repeat split.
    + intros f'. repeat split.
    + exists t. split; [exact Ht |]. apply (quiet_nil _ Ft).
  - rewrite (bind_inr _ _ _ _ _ (log_result _ _ s)).
    set (s1 := snd (log DEBUG ("Page source is only " ++ pretty (drv_page_source_len (st_br s)) ++ " bytes; sleeping") s)).
    assert (Hb1 : st_br s1 = st_br s) by (unfold s1, log; destruct (Nat.leb _ _); reflexivity).
    destruct (emits_log (E:=E) quiet DEBUG ("Page source is only " ++ pretty (drv_page_source_len (st_br s)) ++ " bytes; sleeping") ltac:(repeat split) s)
      as [tl [Hl Fl]]. fold s1 in Hl.
    rewrite (bind_inr _ _ _ _ _ (eq_refl : time_sleep 1 s1 = (inr tt, add_ev (EvSleep 1) (set_br (drv_sleep 1 (st_br s1)) s1)))).
    set (s2 := add_ev (EvSleep 1) (set_br (drv_sleep 1 (st_br s1)) s1)).
    destruct (IH (S count) s2) as [Hr [t [Ht Hs]]].
    + unfold s2. cbn. rewrite Hb1. apply HQs, Hq.
    + lia.
    + lia.
    + split; [exact Hr |]. exists (tl ++ EvSleep 1 :: t). split.
      * rewrite Ht. unfold s2. cbn. rewrite Hl, <- !app_assoc. reflexivity.
      * destruct (quiet_nil _ Fl) as [_ [_ Hsl]]. unfold sleeps in *. rewrite flat_map_app, Hsl.
        cbn. rewrite Hs. replace (21 - count) with (S (21 - S count)) by lia. reflexivity.
Qed.

(** A ready page whose source stays under 30 bytes: [wait_for_page_load]
    sleeps one second 21 times and then fails with [NameError] (from
    [error_screenshot]), never with its own [RuntimeError]. *)
Lemma wait_for_page_load_short_page (s : st B E) b' :
  drv_wait 20 CondReady (st_br s) = (true, b') -> Q b' ->
  fst (wait_for_page_load s) = inl (NameError "codecs") /\
  exists t, st_trace (snd (wait_for_page_load s)) = st_trace s ++ EvWait 20 CondReady true :: t /\
    sleeps t = repeat 1 21.
Proof.
  intros Hw Hq.
  assert (Hu : wait_for_page_load s = page_source_loop 22 0 (add_ev (EvWait 20 CondReady true) (set_br b' s)))
    by (unfold wait_for_page_load, wait_for_ajax_load, webdriver_wait, mbind, M_bind; rewrite Hw; reflexivity).
  rewrite Hu.
  destruct (page_source_loop_short 22 0 (add_ev (EvWait 20 CondReady true) (set_br b' s)) Hq ltac:(lia) eq_refl)
    as [Hr [t [Ht Hs]]].
  split; [exact Hr |]. exists t. split; [rewrite Ht; cbn; rewrite <- app_assoc; reflexivity | exact Hs].
Qed.
End ShortPage.
End BrowserMethods.

Section MoreMethods.
Context {B E : Type} `{!Driver B E}.
Local Open Scope list_scope.

(** One appended event that satisfies [P]. *)
Lemma add_ev_appended (P : event E -> Prop) ev (s : st B E) :
  P ev -> exists t, st_trace (add_ev ev s) = st_trace s ++ t /\ Forall P t.
Proof. intros HP. exists [ev]. split; [reflexivity | constructor; [exact HP | constructor]]. Qed.

Ltac no_clicks :=
  repeat first
    [ apply add_ev_appended; reflexivity
    | apply log_events; reflexivity
    | eapply appended_trans; [| first [apply add_ev_appended; reflexivity | apply log_events; reflexivity]] ].

(** [check_login] on a page without the multi-login warning returns whether
    an element named [logout] is present; it leaves the browser as it was
    and clicks nothing. *)
Lemma check_login_no_multi (o : obj) (s : st B E) :
  drv_find (ByXPath MULTI_LOGIN_XPATH) (st_br s) = [] ->
  fst (check_login o s) = inr (match drv_find (ByName "logout") (st_br s) with [] => false | _ => true end) /\
  st_br (snd (check_login o s)) = st_br s /\
  exists t, st_trace (snd (check_login o s)) = st_trace s ++ t /\ clicks t = [].
Proof.
  intros Hx.
  set (s1 := snd (log DEBUG "No Multi login warning screen detected" (add_ev (EvFind (ByXPath MULTI_LOGIN_XPATH) []) s))).
  assert (Hb1 : st_br s1 = st_br s) by (unfold s1, log; destruct (Nat.leb _ _); reflexivity).
  assert (Hm : forall (k : unit -> M B E bool), (try_all
    (_ ← find_element (ByXPath MULTI_LOGIN_XPATH);
     log INFO "Multi login warning screen detected";;
     yes ← find_element (ByName "yes");
     click yes;;
     wait_for_page_load;;
     do_screenshot o)
    (fun _ => log DEBUG "No Multi login warning screen detected") ≫= k) s = k tt s1).
  { intros k. apply bind_inr. unfold try_all. rewrite (bind_inl _ _ _ _ _ (find_element_nil _ s Hx)).
    apply log_result. }
  unfold check_login. rewrite Hm. unfold try_all.
  destruct (drv_find (ByName "logout") (st_br s)) as [| e es] eqn:HL; rewrite <- Hb1 in HL.
  - rewrite (bind_inl _ _ _ _ _ (find_element_nil _ s1 HL)).
    set (s2 := add_ev (EvFind (ByName "logout") []) s1).
    rewrite (bind_inr _ _ _ _ _ (log_result _ _ s2)). cbn [fst snd].
    split; [reflexivity |]. split.
    + unfold log; destruct (Nat.leb _ _); exact Hb1.
    + assert (Hn : exists t, st_trace (snd (log DEBUG "Logout button not found" s2)) = st_trace s ++ t /\ Forall no_click t)
        by (unfold s2, s1; no_clicks).
      destruct Hn as [t [Ht Ft]]. exists t. split; [exact Ht | apply clicks_no_click, Ft].
  - rewrite (bind_inr _ _ _ _ _ (find_element_cons _ s1 e es HL)). cbn [fst snd].
    split; [reflexivity |]. split; [exact Hb1 |].
    assert (Hn : exists t, st_trace (add_ev (EvFind (ByName "logout") (e :: es)) s1) = st_trace s ++ t /\ Forall no_click t)
      by (unfold s1; no_clicks).
    destruct Hn as [t [Ht Ft]]. exists t. split; [exact Ht | apply clicks_no_click, Ft].
Qed.

(** [get] when the URL has left about:blank right after the first request:
    it succeeds with one request and one 15 s wait, and does not sleep. *)
Lemma get_first_try (o : obj) (tmpl : string) (s : st B E) b' :
  drv_wait 15 (CondUrlNot "about:blank") (drv_get (page_url o tmpl) (st_br s)) = (true, b') ->
  fst (get o tmpl s) = inr tt /\
  exists t, st_trace (snd (get o tmpl s)) = st_trace s ++ t /\
    gets t = [page_url o tmpl] /\ waits t = [(15, CondUrlNot "about:blank", true)] /\ sleeps t = [].
Proof.
  intros Hw. set (url := page_url o tmpl) in *.
  set (s1 := snd (log INFO ("GET " ++ url) s)).
  assert (Hb1 : st_br s1 = st_br s) by (unfold s1, log; destruct (Nat.leb _ _); reflexivity).
  set (s2 := add_ev (EvGet url) (set_br (drv_get url (st_br s1)) s1)).
  assert (Hu : get o tmpl s = (inr tt, add_ev (EvWait 15 (CondUrlNot "about:blank") true) (set_br b' s2))).
  { unfold get. fold url. rewrite (bind_inr _ _ _ _ _ (log_result _ _ s)). fold s1.
    rewrite (bind_inr _ _ _ _ _ (eq_refl : browser_get url s1 = (inr tt, s2))).
    cbn [get_attempts]. unfold try_Exception, mbind, M_bind, webdriver_wait.
    assert (Hw2 : drv_wait 15 (CondUrlNot "about:blank") (st_br s2) = (true, b')) by (unfold s2; cbn; rewrite Hb1; exact Hw).
    rewrite Hw2. reflexivity. }
  rewrite Hu. split; [reflexivity |].
  destruct (log_events quiet INFO ("GET " ++ url) s ltac:(repeat split)) as [tl [Hl Fl]]. fold s1 in Hl.
  exists (tl ++ [EvGet url; EvWait 15 (CondUrlNot "about:blank") true]). split.
  - cbn. rewrite Hl, <- !app_assoc. reflexivity.
  - destruct (quiet_nil _ Fl) as [Hg [Hwt Hs]]. unfold gets, waits, sleeps in *.
    rewrite !flat_map_app, Hg, Hwt, Hs. auto.
Qed.

(** [main_config] once the four [getConfigValue] lookups have succeeded. *)
Lemma main_config_prefix (a : args) (cfg : cfgfile) (s : st B E) act ip user pw :
  getConfigValue a (st_environ s) cfg "action" (PBool false) = inr act ->
  getConfigValue a (st_environ s) cfg "router_ip" (PBool false) = inr ip ->
  getConfigValue a (st_environ s) cfg "username" (PStr "admin") = inr user ->
  getConfigValue a (st_environ s) cfg "password" (PBool false) = inr pw ->
  main_config a cfg s =
    (if negb (truthy ip) || negb (truthy user) || negb (truthy pw) then
       log CRITICAL MSG_REQUIRED;; raise (SystemExit (ExitMsg MSG_REQUIRED))
     else if negb (truthy act) then
       log CRITICAL MSG_ACTION;; raise (SystemExit (ExitMsg MSG_ACTION))
     else
       put_has_browser false;; put_shot_num 1;;
       log DEBUG "Getting browser instance...";;
       mret (mkObj ip user pw (opt_str (a_action a)) (Nat.ltb 0 (a_verbose a)) (a_browser_name a)))
    (if Nat.ltb 0 (a_verbose a) then set_log_level DEBUG s else s).
Proof.
  intros Ha Hi Hu Hp. unfold main_config, lift, getenv.
  destruct (Nat.ltb 0 (a_verbose a));
  unfold set_log_debug, put_log_level, mbind, M_bind, mret, M_ret; cbn [fst snd];
  cbn [st_environ set_log_level]; rewrite Ha, Hi, Hu, Hp; reflexivity.
Qed.

(** When router IP, username or password resolves to a falsy value, [main]
    logs [MSG_REQUIRED] at CRITICAL and exits with that message; when they
    are set but the action is falsy, it does the same with [MSG_ACTION].
    Nothing else happens: no browser is started. *)
Lemma main_rejects_incomplete_config (a : args) (cfg : cfgfile) (s : st B E) act ip user pw :
  getConfigValue a (st_environ s) cfg "action" (PBool false) = inr act ->
  getConfigValue a (st_environ s) cfg "router_ip" (PBool false) = inr ip ->
  getConfigValue a (st_environ s) cfg "username" (PStr "admin") = inr user ->
  getConfigValue a (st_environ s) cfg "password" (PBool false) = inr pw ->
  let s0 := if Nat.ltb 0 (a_verbose a) then set_log_level DEBUG s else s in
  (truthy ip && truthy user && truthy pw = false ->
   main a cfg s = (inl (SystemExit (ExitMsg MSG_REQUIRED)), add_ev (EvLog CRITICAL MSG_REQUIRED) s0)) /\
  (truthy ip && truthy user && truthy pw = true -> truthy act = false ->
   main a cfg s = (inl (SystemExit (ExitMsg MSG_ACTION)), add_ev (EvLog CRITICAL MSG_ACTION) s0)).
Proof.
  intros Ha Hi Hu Hp s0. pose proof (main_config_prefix a cfg s act ip user pw Ha Hi Hu Hp) as Hc.
  fold s0 in Hc. unfold main. rewrite (bind_inr _ _ _ _ _ (getenv_run s)).
  split.
  - intros Hf.
    assert (Hb : negb (truthy ip) || negb (truthy user) || negb (truthy pw) = true).
    { destruct (truthy ip), (truthy user), (truthy pw); cbn in *; congruence. }
    rewrite Hb in Hc. cbv beta iota delta [negb orb andb] in Hc. unfold mbind, M_bind in Hc. rewrite log_critical in Hc.
    rewrite (bind_inl _ _ _ _ _ Hc). reflexivity.
  - intros Ht Hact.
    assert (Hb : negb (truthy ip) || negb (truthy user) || negb (truthy pw) = false).
    { destruct (truthy ip), (truthy user), (truthy pw); cbn in *; congruence. }
    rewrite Hb, Hact in Hc. cbv beta iota delta [negb orb andb] in Hc. unfold mbind, M_bind in Hc. rewrite log_critical in Hc.
    rewrite (bind_inl _ _ _ _ _ Hc). reflexivity.
Qed.

(** When [main_config] succeeds, all four settings are truthy, the object
    holds the resolved IP, username and password, the command-line action,
    the [-v] flag as its debug flag and the browser name; the logger is at
    DEBUG exactly with [-v], the object has no browser yet and its screenshot
    counter is 1, and the browser and the environment are untouched. *)
Lemma main_config_object (a : args) (cfg : cfgfile) (s : st B E) act ip user pw o s' :
  getConfigValue a (st_environ s) cfg "action" (PBool false) = inr act ->
  getConfigValue a (st_environ s) cfg "router_ip" (PBool false) = inr ip ->
  getConfigValue a (st_environ s) cfg "username" (PStr "admin") = inr user ->
  getConfigValue a (st_environ s) cfg "password" (PBool false) = inr pw ->
  main_config a cfg s = (inr o, s') ->
  truthy act && truthy ip && truthy user && truthy pw = true /\
  o = mkObj ip user pw (opt_str (a_action a)) (Nat.ltb 0 (a_verbose a)) (a_browser_name a) /\
  st_log_level s' = (if Nat.ltb 0 (a_verbose a) then DEBUG else st_log_level s) /\
  st_has_browser s' = false /\ st_shot_num s' = 1 /\
  st_br s' = st_br s /\ st_environ s' = st_environ s.
Proof.
  intros Ha Hi Hu Hp Hm. rewrite (main_config_prefix a cfg s act ip user pw Ha Hi Hu Hp) in Hm.
  destruct (truthy ip), (truthy user), (truthy pw); cbv beta iota delta [negb orb andb] in Hm; unfold mbind, M_bind in Hm;
    try (rewrite log_critical in Hm; discriminate).
  destruct (truthy act); cbv beta iota delta [negb orb andb] in Hm; [| rewrite log_critical in Hm; discriminate].
  unfold put_has_browser, put_shot_num, log, mret, M_ret in Hm.
  destruct (Nat.ltb 0 (a_verbose a)); cbn in Hm;
  [| destruct (Nat.leb (level_num (st_log_level s)) _) ];
  injection Hm as <- <-; repeat split.
Qed.

(** After [run]: an exception from [run] ends [main] unchanged; a normal end
    prints the three CGI header lines exactly when GATEWAY_INTERFACE is set
    in the environment, and nothing otherwise. *)
Lemma main_cgi_headers (a : args) (cfg : cfgfile) (o : obj) (s s0 s1 : st B E) r :
  main_config a cfg s = (inr o, s0) ->
  run o s0 = (r, s1) ->
  main a cfg s =
    match r with
    | inl e => (inl e, s1)
    | inr _ =>
        (inr tt,
         match st_environ s !! "GATEWAY_INTERFACE" with
         | Some _ => add_ev (EvPrint "") (add_ev (EvPrint "Location: index.html")
                       (add_ev (EvPrint "Status: 200 OK") s1))
         | None => s1
         end)
    end.
Proof.
  intros Hc Hr. unfold main. rewrite (bind_inr _ _ _ _ _ (getenv_run s)), (bind_inr _ _ _ _ _ Hc).
  destruct r as [e | []].
  - rewrite (bind_inl _ _ _ _ _ Hr). reflexivity.
  - rewrite (bind_inr _ _ _ _ _ Hr). unfold cgi_headers.
    destruct (st_environ s !! "GATEWAY_INTERFACE"); reflexivity.
Qed.

(** One [do_screenshot] that returns normally: without the debug flag it
    changes nothing; with it, it saves [<cwd>/<n>.png] for the current
    counter [n], logs below CRITICAL and increments the counter. *)
Lemma do_screenshot_step (o : obj) (s s' : st B E) :
  do_screenshot o s = (inr tt, s') ->
  st_cwd s' = st_cwd s /\
  (o_screenshot o = false -> s' = s) /\
  (o_screenshot o = true ->
   st_shot_num s' = S (st_shot_num s) /\
   exists t, st_trace s' = st_trace s ++
     EvScreenshot (path_join (st_cwd s) (pretty (st_shot_num s) ++ ".png")) :: t /\
     Forall log_only t).
Proof.
  unfold do_screenshot. destruct (o_screenshot o); cbn.
  - unfold log, getcwd, get_shot_num, screenshot_as_file, emit, query, put_shot_num, mbind, M_bind.
    destruct s as [br tr env cwd lvl hb n]; cbn.
    match goal with |- context [if ?c then _ else _] => destruct c end;
    intros [= <-]; cbn; (split; [reflexivity | split; [discriminate |]]);
    intros _; (split; [reflexivity |]).
    + eexists; split; [rewrite <- app_assoc; reflexivity |].
      repeat constructor. discriminate.
    + exists []. split; [reflexivity | constructor].
  - intros [= <-]. split; [reflexivity | split; [reflexivity | discriminate]].
Qed.

(** Two successive [do_screenshot] calls that return normally: without the
    debug flag nothing changes; with it, the first saves [<cwd>/<n>.png] and
    the second [<cwd>/<n+1>.png], with only log entries below CRITICAL in
    between and after, and the counter ends at [n + 2]. *)
Lemma do_screenshot_numbering (o : obj) (s s1 s2 : st B E) :
  do_screenshot o s = (inr tt, s1) ->
  do_screenshot o s1 = (inr tt, s2) ->
  (o_screenshot o = false -> s2 = s) /\
  (o_screenshot o = true ->
   st_shot_num s2 = st_shot_num s + 2 /\
   exists t1 t2, st_trace s2 = st_trace s ++
     EvScreenshot (path_join (st_cwd s) (pretty (st_shot_num s) ++ ".png")) :: t1 ++
     EvScreenshot (path_join (st_cwd s) (pretty (S (st_shot_num s)) ++ ".png")) :: t2 /\
     Forall log_only t1 /\ Forall log_only t2).
Proof.
  intros H1 H2.
  destruct (do_screenshot_step o s s1 H1) as [C1 [F1 T1]].
  destruct (do_screenshot_step o s1 s2 H2) as [C2 [F2 T2]].
  split.
  - intros Hf. rewrite (F2 Hf). exact (F1 Hf).
  - intros Ht. destruct (T1 Ht) as [N1 [t1 [Tr1 L1]]]. destruct (T2 Ht) as [N2 [t2 [Tr2 L2]]].
    split; [rewrite N2, N1; lia |].
    exists t1, t2. rewrite Tr2, Tr1, C1, N1, <- app_assoc. split; [reflexivity | split; assumption].
Qed.
End MoreMethods.

Section ConfigEdges.
Local Open Scope list_scope.

(** The [parse_qs] fold, from any accumulator. *)
Lemma parse_qs_fold (n : string) (l : list (string * string)) (acc : gmap string (list string)) :
  fold_left (fun (acc : gmap string (list string)) '(n, v) =>
    match acc !! n with
    | Some vs => <[n := (vs ++ [v])%list]> acc
    | None => <[n := [v]]> acc
    end) l acc !! n =
  let vs := map snd (List.filter (fun p => String.eqb (fst p) n) l) in
  match acc !! n with
  | Some ws => Some (ws ++ vs)
  | None => match vs with [] => None | _ => Some vs end
  end.
Proof.
  revert acc. induction l as [| [k v] l IH]; intros acc; cbn.
  - destruct (acc !! n); [rewrite app_nil_r |]; reflexivity.
  - rewrite IH. cbn. destruct (String.eqb_spec k n) as [-> | Hk].
    + destruct (acc !! n) as [ws |] eqn:Ha; rewrite lookup_insert; case_decide; try congruence.
      * rewrite <- app_assoc. reflexivity.
      * reflexivity.
    + destruct (acc !! k); rewrite lookup_insert_ne by congruence; reflexivity.
Qed.

(** [parse_qs] groups the pairs of [parse_qsl]: a name maps to the list of
    its values in query-string order, and is absent when it has none. *)
Lemma parse_qs_lookup (qs n : string) :
  let vs := map snd (List.filter (fun p => String.eqb (fst p) n) (parse_qsl qs)) in
  parse_qs qs !! n = match vs with [] => None | _ => Some vs end.
Proof. unfold parse_qs. rewrite parse_qs_fold. rewrite lookup_empty. reflexivity. Qed.

(** [unquote] keeps a non-empty string non-empty. *)
Lemma unquote_nonempty (s : string) : s <> "" -> unquote s <> "".
Proof.
  destruct s as [| x r]; [congruence |]. intros _. cbn.
  destruct (Ascii.eqb x "%"%char); [| discriminate].
  destruct r as [| h1 [| h2 r']]; try discriminate.
  destruct (hex_digit h1), (hex_digit h2); discriminate.
Qed.

(** [plus_to_space] keeps a non-empty string non-empty. *)
Lemma plus_to_space_nonempty (s : string) : s <> "" -> plus_to_space s <> "".
Proof. destruct s; [congruence | discriminate]. Qed.

(** [parse_qsl] drops blank values: no pair it returns has an empty value. *)
Lemma parse_qsl_nonblank (qs n v : string) : In (n, v) (parse_qsl qs) -> v <> "".
Proof.
  unfold parse_qsl. rewrite in_flat_map. intros [nv [_ Hin]].
  destruct (String.eqb nv ""); [destruct Hin |].
  destruct (split_first "="%char nv) as [[n' v'] |]; [| destruct Hin].
  destruct (String.eqb_spec v' ""); [destruct Hin |].
  destruct Hin as [[= <- <-] | []].
  apply unquote_nonempty, plus_to_space_nonempty. exact n0.
Qed.

(** Every list [parse_qs] returns is non-empty, with no empty value. *)
Lemma parse_qs_nonblank (qs n : string) (vs : list string) :
  parse_qs qs !! n = Some vs -> vs <> [] /\ Forall (fun v => v <> "") vs.
Proof.
  rewrite parse_qs_lookup. cbv zeta.
  remember (map snd (List.filter (fun p => String.eqb (fst p) n) (parse_qsl qs))) as ws eqn:Hws.
  intros H. assert (ws = vs) as <- by (destruct ws; congruence).
  split; [destruct ws; congruence |].
  apply List.Forall_forall. intros v Hv. subst ws. apply in_map_iff in Hv as [[k v'] [<- Hk]].
  apply filter_In in Hk as [Hk _]. exact (parse_qsl_nonblank qs k v' Hk).
Qed.

(** When neither the query string nor the config.json object supplies
    [name], [getConfigValue] returns the command-line value if truthy and
    the default otherwise; for a name that is no command-line option, the
    local [value] is unbound and it raises [UnboundLocalError]. *)
Lemma getConfigValue_unsupplied (a : args) (environ : gmap string string)
    (kv : list (string * pyval)) (name : string) (default : pyval) :
  match environ !! "QUERY_STRING" with Some qs => parse_qs qs !! name = None | None => True end ->
  json_field kv name = None ->
  getConfigValue a environ (CfgJson (PDict kv)) name default =
    match vars a !! name with
    | Some v => inr (if truthy v then v else default)
    | None => inl (UnboundLocalError "value")
    end.
Proof.
  intros Hq Hk. unfold getConfigValue, query_step, config_step, load_config, json_lookup.
  unfold json_field in Hk. rewrite Hk.
  destruct (vars a !! name) as [v |]; [destruct (truthy v) eqn:Ht; [reflexivity |] |];
  (destruct (environ !! "QUERY_STRING"); [rewrite Hq |]); cbn; try rewrite Ht; reflexivity.
Qed.

(** A config.json that is not a JSON object never supplies a value: once
    the command line and the query string give nothing, [name in config]
    raises [TypeError] for a number, boolean or null, [config[name]] raises
    [TypeError] when a list holds [name] or a string contains it, and
    otherwise the default is returned. *)
Lemma getConfigValue_non_object_config (a : args) (environ : gmap string string)
    (j : pyval) (name : string) (default : pyval) :
  match vars a !! name with Some v => truthy v = false | None => False end ->
  match environ !! "QUERY_STRING" with Some qs => parse_qs qs !! name = None | None => True end ->
  (forall kv, j <> PDict kv) ->
  getConfigValue a environ (CfgJson j) name default =
    match j with
    | PList l => if existsb (fun x => py_eq_str x name) l then inl TypeError else inr default
    | PStr s => if is_substring name s then inl TypeError else inr default
    | _ => inl TypeError
    end.
Proof.
  intros Hc Hq Hj. unfold getConfigValue, query_step, config_step, load_config, json_lookup.
  destruct (vars a !! name) as [v |]; [| destruct Hc]. rewrite Hc.
  destruct (environ !! "QUERY_STRING") as [qs |]; [rewrite Hq |];
  (destruct j as [| | | str | l | kv]; [reflexivity | reflexivity | reflexivity | | | destruct (Hj kv eq_refl)]);
  [destruct (is_substring name str) | destruct (existsb _ l)
  |destruct (is_substring name str) | destruct (existsb _ l)]; cbn; try reflexivity; rewrite Hc; reflexivity.
Qed.

End ConfigEdges.

Import Blank.

Lemma get_browser_environ_witness :
  let o := mkObj (PStr "192.168.1.1") (PStr "admin") (PStr "pw") (PStr "reboot") false "firefox" in
  get_browser o (init router ∅) = (fst (get_browser o (init router ∅)), snd (get_browser o (init router ∅))) /\
  st_environ (snd (get_browser o (init router ∅))) =
    if String.eqb (o_browser_name o) "firefox" then
      match st_environ (init router ∅) !! "DISPLAY" with
      | Some _ => st_environ (init router ∅)
      | None => <["DISPLAY" := ":0"]> (st_environ (init router ∅))
      end
    else st_environ (init router ∅).
Proof.
  cbv zeta. split; [apply surjective_pairing |].
  exact (get_browser_environ _ (init router ∅) _ _ (surjective_pairing _)).
Defined.

Lemma get_browser_unknown_name_witness :
  let o := mkObj (PStr "192.168.1.1") (PStr "admin") (PStr "pw") (PStr "reboot") false "safari" in
  ~ In (o_browser_name o) browser_names /\
  get_browser o (init router ∅) =
    (inl (SystemExit (ExitMsg "ERROR: browser type must be one of 'firefox', 'chrome', 'phantomjs', or 'chrome-headless' not 'safari'")), init router ∅) /\
  run o (init router ∅) =
    (inl (SystemExit (ExitMsg "ERROR: browser type must be one of 'firefox', 'chrome', 'phantomjs', or 'chrome-headless' not 'safari'")),
     snd (log DEBUG "Getting page..." (init router ∅))).
Proof.
  cbv zeta.
  assert (Hn : ~ In "safari" browser_names) by (simpl; intuition discriminate).
  split; [exact Hn |].
  exact (get_browser_unknown_name (mkObj (PStr "192.168.1.1") (PStr "admin") (PStr "pw") (PStr "reboot") false "safari")
           (init router ∅) Hn).
Defined.

Lemma get_browser_launch_then_resize_witness :
  let o := mkObj (PStr "192.168.1.1") (PStr "admin") (PStr "pw") (PStr "reboot") false "firefox" in
  let s' := snd (get_browser o (init router ∅)) in
  get_browser o (init router ∅) = (inr tt, s') /\
  (exists b, drv_launch (o_browser_name o) (st_br (init router ∅)) = Some b) /\
  exists t1 t2,
    st_trace s' = (st_trace (init router ∅) ++ t1 ++ EvAcquire (o_browser_name o) :: EvWindowSize 1024 768 :: t2)%list /\
    Forall setup_event t1 /\ Forall log_only t2.
Proof.
  cbv zeta.
  assert (Hg : get_browser (mkObj (PStr "192.168.1.1") (PStr "admin") (PStr "pw") (PStr "reboot") false "firefox") (init router ∅) =
               (inr tt, snd (get_browser (mkObj (PStr "192.168.1.1") (PStr "admin") (PStr "pw") (PStr "reboot") false "firefox") (init router ∅))))
    by (vm_compute; reflexivity).
  split; [exact Hg |]. exact (get_browser_launch_then_resize _ _ _ Hg).
Defined.

Lemma error_screenshot_effect_witness :
  st_log_level (init router ∅) <> CRITICAL /\
  error_screenshot (init router ∅) =
    (inl (NameError "codecs"),
     add_ev (EvLog ERROR ("Page title: " ++ drv_title (st_br (init router ∅))))
       (add_ev (EvLog ERROR ("Screenshot saved to: " ++ path_join (st_cwd (init router ∅)) "webdriver_fail.png"))
          (add_ev (EvScreenshot (path_join (st_cwd (init router ∅)) "webdriver_fail.png")) (init router ∅)))).
Proof.
  assert (Hl : st_log_level (init router ∅) <> CRITICAL) by discriminate.
  split; [exact Hl | exact (error_screenshot_effect (init router ∅) Hl)].
Defined.

Lemma wait_for_page_load_short_page_witness :
  drv_wait 20 CondReady (st_br blank_state) = (true, BState) /\
  fst (wait_for_page_load blank_state) = inl (NameError "codecs") /\
  exists t, st_trace (snd (wait_for_page_load blank_state)) =
              (st_trace blank_state ++ EvWait 20 CondReady true :: t)%list /\
    sleeps t = repeat 1 21.
Proof.
  split; [reflexivity |].
  apply (wait_for_page_load_short_page (fun _ => True)) with (b' := BState).
  - intros b _. simpl. lia.
  - intros b _. exact I.
  - reflexivity.
  - exact I.
Defined.

Lemma check_login_no_multi_witness :
  drv_find (ByXPath MULTI_LOGIN_XPATH) (st_br blank_state) = [] /\
  fst (check_login (the_obj ACTION_REBOOT) blank_state) = inr false /\
  st_br (snd (check_login (the_obj ACTION_REBOOT) blank_state)) = st_br blank_state /\
  exists t, st_trace (snd (check_login (the_obj ACTION_REBOOT) blank_state)) = (st_trace blank_state ++ t)%list /\
    clicks t = [].
Proof.
  assert (Hx : drv_find (ByXPath MULTI_LOGIN_XPATH) (st_br blank_state) = []) by reflexivity.
  split; [exact Hx |]. exact (check_login_no_multi (the_obj ACTION_REBOOT) blank_state Hx).
Defined.

Lemma wait_for_page_load_fast_witness :
  drv_wait 20 CondReady (st_br (init router ∅)) = (true, router) /\ 30 <= drv_page_source_len router /\
  wait_for_page_load (init router ∅) = (inr tt, add_ev (EvWait 20 CondReady true) (set_br router (init router ∅))).
Proof.
  assert (Hw : drv_wait 20 CondReady (st_br (init router ∅)) = (true, router)) by reflexivity.
  assert (Hl : 30 <= drv_page_source_len router) by (simpl; lia).
  split; [exact Hw | split; [exact Hl |]].
  exact (proj2 (wait_for_page_load_fast (init router ∅) router) Hw Hl).
Defined.

Lemma reboot_failures_witness :
  drv_find (ById "reboot") (st_br blank_state) = [] /\
  reboot blank_state = (inl NoSuchElementException, add_ev (EvFind (ById "reboot") []) blank_state).
Proof.
  assert (Hf : drv_find (ById "reboot") (st_br blank_state) = []) by reflexivity.
  split; [exact Hf | exact (proj1 (reboot_failures blank_state) Hf)].
Defined.

Lemma block_services_no_apply_witness :
  drv_find (ByName "apply") (st_br blank_state) = [] /\
  block_services (the_obj ACTION_BLOCK) true blank_state =
    (inl NoSuchElementException, add_ev (EvFind (ByName "apply") []) blank_state).
Proof.
  assert (Hf : drv_find (ByName "apply") (st_br blank_state) = []) by reflexivity.
  split; [exact Hf | exact (block_services_no_apply (the_obj ACTION_BLOCK) true blank_state Hf)].
Defined.

Lemma get_first_try_witness :
  let o := the_obj ACTION_REBOOT in
  drv_wait 15 (CondUrlNot "about:blank") (drv_get (page_url o START_URL) (st_br (init router ∅))) =
    (true, with_url (page_url o START_URL) router) /\
  fst (get o START_URL (init router ∅)) = inr tt /\
  exists t, st_trace (snd (get o START_URL (init router ∅))) = (st_trace (init router ∅) ++ t)%list /\
    gets t = [page_url o START_URL] /\ waits t = [(15, CondUrlNot "about:blank", true)] /\ sleeps t = [].
Proof.
  cbv zeta.
  assert (Hw : drv_wait 15 (CondUrlNot "about:blank")
                 (drv_get (page_url (the_obj ACTION_REBOOT) START_URL) (st_br (init router ∅))) =
               (true, with_url (page_url (the_obj ACTION_REBOOT) START_URL) router)) by reflexivity.
  split; [exact Hw | exact (get_first_try _ _ _ _ Hw)].
Defined.

Lemma main_rejects_incomplete_config_witness :
  let cfg := CfgJson (PDict []) in
  let s := init router ∅ in
  getConfigValue cli_no_action (st_environ s) cfg "action" (PBool false) = inr (PBool false) /\
  getConfigValue cli_no_action (st_environ s) cfg "router_ip" (PBool false) = inr (PStr "192.168.1.1") /\
  getConfigValue cli_no_action (st_environ s) cfg "username" (PStr "admin") = inr (PStr "admin") /\
  getConfigValue cli_no_action (st_environ s) cfg "password" (PBool false) = inr (PStr "pw") /\
  main cli_no_action cfg s = (inl (SystemExit (ExitMsg MSG_ACTION)), add_ev (EvLog CRITICAL MSG_ACTION) s).
Proof.
  cbv zeta.
  assert (Ha : getConfigValue cli_no_action (st_environ (init router ∅)) (CfgJson (PDict [])) "action" (PBool false)
               = inr (PBool false)) by reflexivity.
  assert (Hi : getConfigValue cli_no_action (st_environ (init router ∅)) (CfgJson (PDict [])) "router_ip" (PBool false)
               = inr (PStr "192.168.1.1")) by reflexivity.
  assert (Hu : getConfigValue cli_no_action (st_environ (init router ∅)) (CfgJson (PDict [])) "username" (PStr "admin")
               = inr (PStr "admin")) by reflexivity.
  assert (Hp : getConfigValue cli_no_action (st_environ (init router ∅)) (CfgJson (PDict [])) "password" (PBool false)
               = inr (PStr "pw")) by reflexivity.
  split; [exact Ha | split; [exact Hi | split; [exact Hu | split; [exact Hp |]]]].
  exact (proj2 (main_rejects_incomplete_config cli_no_action (CfgJson (PDict [])) (init router ∅) _ _ _ _ Ha Hi Hu Hp)
           eq_refl eq_refl).
Defined.

Lemma main_config_object_witness :
  let a := cli (Some ACTION_REBOOT) in
  let cfg := CfgJson (PDict []) in
  let s := init router ∅ in
  let s' := snd (main_config a cfg s) in
  main_config a cfg s = (inr (the_obj ACTION_REBOOT), s') /\
  (truthy (PStr "reboot") && truthy (PStr "192.168.1.1") && truthy (PStr "admin") && truthy (PStr "pw") = true /\
   the_obj ACTION_REBOOT = mkObj (PStr "192.168.1.1") (PStr "admin") (PStr "pw") (opt_str (a_action a))
                             (Nat.ltb 0 (a_verbose a)) (a_browser_name a) /\
   st_log_level s' = (if Nat.ltb 0 (a_verbose a) then DEBUG else st_log_level s) /\
   st_has_browser s' = false /\ st_shot_num s' = 1 /\
   st_br s' = st_br s /\ st_environ s' = st_environ s).
Proof.
  cbv zeta.
  assert (Hm : main_config (cli (Some ACTION_REBOOT)) (CfgJson (PDict [])) (init router ∅) =
               (inr (the_obj ACTION_REBOOT), snd (main_config (cli (Some ACTION_REBOOT)) (CfgJson (PDict [])) (init router ∅))))
    by (vm_compute; reflexivity).
  split; [exact Hm |].
  exact (main_config_object (cli (Some ACTION_REBOOT)) (CfgJson (PDict [])) (init router ∅)
           (PStr "reboot") (PStr "192.168.1.1") (PStr "admin") (PStr "pw") _ _
           eq_refl eq_refl eq_refl eq_refl Hm).
Defined.

Lemma main_cgi_headers_witness :
  let a := cli (Some ACTION_REBOOT) in
  let cfg := CfgJson (PDict []) in
  let s := init router (<["GATEWAY_INTERFACE" := "CGI/1.1"]> ∅) in
  let o := the_obj ACTION_REBOOT in
  let s0 := snd (main_config a cfg s) in
  let s1 := snd (run o s0) in
  main_config a cfg s = (inr o, s0) /\ run o s0 = (inr tt, s1) /\
  main a cfg s =
    (inr tt, add_ev (EvPrint "") (add_ev (EvPrint "Location: index.html") (add_ev (EvPrint "Status: 200 OK") s1))).
Proof.
  cbv zeta.
  assert (Hc : main_config (cli (Some ACTION_REBOOT)) (CfgJson (PDict [])) (init router (<["GATEWAY_INTERFACE" := "CGI/1.1"]> ∅)) =
     (inr (the_obj ACTION_REBOOT),
      snd (main_config (cli (Some ACTION_REBOOT)) (CfgJson (PDict [])) (init router (<["GATEWAY_INTERFACE" := "CGI/1.1"]> ∅)))))
    by (vm_compute; reflexivity).
  assert (Hr : run (the_obj ACTION_REBOOT)
      (snd (main_config (cli (Some ACTION_REBOOT)) (CfgJson (PDict [])) (init router (<["GATEWAY_INTERFACE" := "CGI/1.1"]> ∅)))) =
     (inr tt, snd (run (the_obj ACTION_REBOOT)
      (snd (main_config (cli (Some ACTION_REBOOT)) (CfgJson (PDict [])) (init router (<["GATEWAY_INTERFACE" := "CGI/1.1"]> ∅)))))))
    by (vm_compute; reflexivity).
  split; [exact Hc | split; [exact Hr |]].
  exact (main_cgi_headers _ _ _ _ _ _ _ Hc Hr).
Defined.

Lemma do_screenshot_numbering_witness :
  let o := mkObj (PStr "192.168.1.1") (PStr "admin") (PStr "pw") (PStr "reboot") true "chrome-headless" in
  let s := init router ∅ in
  let s1 := snd (do_screenshot o s) in
  let s2 := snd (do_screenshot o s1) in
  do_screenshot o s = (inr tt, s1) /\ do_screenshot o s1 = (inr tt, s2) /\
  st_shot_num s2 = 3 /\
  exists t1 t2, st_trace s2 =
    (st_trace s ++ EvScreenshot "/var/www/1.png" :: t1 ++ EvScreenshot "/var/www/2.png" :: t2)%list /\
    Forall log_only t1 /\ Forall log_only t2.
Proof.
  cbv zeta.
  set (o := mkObj (PStr "192.168.1.1") (PStr "admin") (PStr "pw") (PStr "reboot") true "chrome-headless").
  assert (H1 : do_screenshot o (init router ∅) = (inr tt, snd (do_screenshot o (init router ∅))))
    by (vm_compute; reflexivity).
  assert (H2 : do_screenshot o (snd (do_screenshot o (init router ∅))) =
               (inr tt, snd (do_screenshot o (snd (do_screenshot o (init router ∅))))))
    by (vm_compute; reflexivity).
  split; [exact H1 | split; [exact H2 |]].
  exact (proj2 (do_screenshot_numbering o _ _ _ H1 H2) eq_refl).
Defined.

Lemma parse_qsl_nonblank_witness :
  In ("action", "reboot") (parse_qsl "action=reboot&x=&y") /\ "reboot" <> "".
Proof.
  assert (Hin : In ("action", "reboot") (parse_qsl "action=reboot&x=&y")) by (left; reflexivity).
  split; [exact Hin | exact (parse_qsl_nonblank _ _ _ Hin)].
Defined.

Lemma parse_qs_nonblank_witness :
  parse_qs "action=block&action=&action=unblock" !! "action" = Some ["block"; "unblock"] /\
  ["block"; "unblock"] <> [] /\ Forall (fun v => v <> "") ["block"; "unblock"].
Proof.
  assert (Hq : parse_qs "action=block&action=&action=unblock" !! "action" = Some ["block"; "unblock"])
    by reflexivity.
  split; [exact Hq | exact (parse_qs_nonblank _ _ _ Hq)].
Defined.

Lemma getConfigValue_unsupplied_witness :
  json_field [("router_ip", PStr "10.0.0.1")] "timeout" = None /\
  getConfigValue no_cli_args ∅ (CfgJson (PDict [("router_ip", PStr "10.0.0.1")])) "timeout" (PBool false) =
    inl (UnboundLocalError "value").
Proof.
  assert (Hk : json_field [("router_ip", PStr "10.0.0.1")] "timeout" = None) by reflexivity.
  split; [exact Hk |].
  exact (getConfigValue_unsupplied no_cli_args ∅ [("router_ip", PStr "10.0.0.1")] "timeout" (PBool false) I Hk).
Defined.

Lemma getConfigValue_non_object_config_witness :
  vars no_cli_args !! "username" = Some PNone /\
  getConfigValue no_cli_args ∅ (CfgJson (PList [PStr "username"])) "username" (PStr "admin") = inl TypeError /\
  getConfigValue no_cli_args ∅ (CfgJson (PList [PStr "password"])) "username" (PStr "admin") = inr (PStr "admin").
Proof.
  split; [reflexivity |].
  assert (Hj : forall l kv, PList l <> PDict kv) by discriminate.
  split.
  - exact (getConfigValue_non_object_config no_cli_args ∅ (PList [PStr "username"]) "username" (PStr "admin")
             eq_refl I (Hj _)).
  - exact (getConfigValue_non_object_config no_cli_args ∅ (PList [PStr "password"]) "username" (PStr "admin")
             eq_refl I (Hj _)).
Defined.
